(** * BigQuery backup cloud function: a shallow embedding of
      [bigquery_backup/function.go] and the properties of its handler.

    Go strings are byte strings: they are [string] here.  A Go [error] is
    [option error], [None] being [nil].  The three cloud services and the
    process environment are a record of responses, [Cloud]; what the handler
    does to them is recorded as a trace of [event]s in the process state. *)

From Stdlib Require Import String Ascii List Bool Arith Lia.
Import ListNotations.
Open Scope string_scope.

(** ** Constants and records of the package *)

Definition csvFormat : string := "CSV".
Definition jsonFormat : string := "JSON".
Definition avroFormat : string := "AVRO".
Definition parquetFormat : string := "PARQUET".

Definition gzipCompression : string := "GZIP".
Definition snappyCompression : string := "SNAPPY".
Definition zstdCompression : string := "ZSTD".
Definition deflateCompression : string := "DEFLATE".

Record backupParams : Type := mkBackupParams {
  projectID : string;
  sourceDatasetID : string;
  backupTableID : string;
  storageBucket : string;
  compressionType : string;
  destinationFormat : string
}.

Record postBodyParams : Type := mkPostBodyParams {
  DatasetName : string;
  TableName : string;
  StorageBucket : string;
  Format : string;
  Compression : string
}.

(** Field assignments [bp.f = v] through the pointer receiver. *)
Definition set_projectID (v : string) (bp : backupParams) : backupParams :=
  mkBackupParams v (sourceDatasetID bp) (backupTableID bp) (storageBucket bp)
                 (compressionType bp) (destinationFormat bp).
Definition set_compressionType (v : string) (bp : backupParams) : backupParams :=
  mkBackupParams (projectID bp) (sourceDatasetID bp) (backupTableID bp)
                 (storageBucket bp) v (destinationFormat bp).
Definition set_destinationFormat (v : string) (bp : backupParams) : backupParams :=
  mkBackupParams (projectID bp) (sourceDatasetID bp) (backupTableID bp)
                 (storageBucket bp) (compressionType bp) v.

(** The zero value [backupParams{}]. *)
Definition zeroBackupParams : backupParams := mkBackupParams "" "" "" "" "" "".

(** ** Errors, results and the library functions the package calls *)

Definition error : Type := string.

Inductive result (A : Type) : Type :=
| Ok (a : A)
| Err (e : error).
Arguments Ok {A} a.
Arguments Err {A} e.

(** Operands of [fmt.Sprintf] as the package passes them: strings, and
    [error] values (possibly nil). *)
Inductive operand : Type :=
| OStr (s : string)
| OErr (e : option error).

Definition show (a : operand) : string :=
  match a with
  | OStr s => s
  | OErr (Some e) => e
  | OErr None => "<nil>"
  end.

Definition isVerb (c : ascii) : bool := Ascii.eqb c "s" || Ascii.eqb c "v".

(** [fmt.Sprintf] for the verbs [%s] and [%v], the only ones of the package.
    A verb without operand prints Go's [%!v(MISSING)]; every call of the
    package passes as many operands as verbs, so surplus operands (which Go
    reports in an [EXTRA] suffix) are not modelled. *)
Fixpoint Sprintf (f : string) (args : list operand) : string :=
  match f with
  | EmptyString => EmptyString
  | String c f' =>
      if Ascii.eqb c "%" then
        match f' with
        | EmptyString => "%!(NOVERB)"
        | String v f'' =>
            if isVerb v then
              match args with
              | a :: args' => show a ++ Sprintf f'' args'
              | [] => String "%" (String "!" (String v "(MISSING)")) ++ Sprintf f'' []
              end
            else String c (Sprintf f' args)
        end
      else String c (Sprintf f' args)
  end.

(** [strings.ToLower] on the ASCII range: the bytes [A]..[Z] move to
    [a]..[z], every other byte stays.  It agrees with Go on strings of
    ASCII bytes, which is what a resolved destination format is. *)
Definition lowerByte (c : ascii) : ascii :=
  let n := nat_of_ascii c in
  if ((65 <=? n) && (n <=? 90))%nat then ascii_of_nat (n + 32) else c.

Fixpoint ToLower (s : string) : string :=
  match s with
  | EmptyString => EmptyString
  | String c s' => String (lowerByte c) (ToLower s')
  end.

(** White space as [unicode.IsSpace] has it, on the UTF-8 bytes of a Go
    string.  The ASCII ones are one byte: space, and tab to carriage
    return. *)
Definition isSpace (c : ascii) : bool :=
  let n := nat_of_ascii c in
  ((n =? 32) || ((9 <=? n) && (n <=? 13)))%nat.

(** U+0085 and U+00A0 are the two bytes C2 85 and C2 A0. *)
Definition isSpace2 (a b : ascii) : bool :=
  let x := nat_of_ascii a in
  let y := nat_of_ascii b in
  ((x =? 194) && ((y =? 133) || (y =? 160)))%nat.

(** U+1680 is E1 9A 80; U+2000 to U+200A, U+2028, U+2029 and U+202F are
    E2 80 followed by 80 to 8A, A8, A9 and AF; U+205F is E2 81 9F; U+3000
    is E3 80 80. *)
Definition isSpace3 (a b c : ascii) : bool :=
  let x := nat_of_ascii a in
  let y := nat_of_ascii b in
  let z := nat_of_ascii c in
  (((x =? 225) && (y =? 154) && (z =? 128))
   || ((x =? 226) && (y =? 128)
       && (((128 <=? z) && (z <=? 138)) || (z =? 168) || (z =? 169) || (z =? 175)))
   || ((x =? 226) && (y =? 129) && (z =? 159))
   || ((x =? 227) && (y =? 128) && (z =? 128)))%nat.

(** Dropping the white space at the head of a list of bytes, a rune at a
    time; [sp2] and [sp3] recognise the runes of two and of three bytes.
    A byte that starts no white space stops the trimming, an ill-formed
    sequence included. *)
Fixpoint trimWith (sp2 : ascii -> ascii -> bool) (sp3 : ascii -> ascii -> ascii -> bool)
  (l : list ascii) : list ascii :=
  match l with
  | [] => []
  | a :: l1 =>
      if isSpace a then trimWith sp2 sp3 l1
      else
        match l1 with
        | [] => l
        | b :: l2 =>
            if sp2 a b then trimWith sp2 sp3 l2
            else
              match l2 with
              | [] => l
              | c :: l3 => if sp3 a b c then trimWith sp2 sp3 l3 else l
              end
        end
  end.

Definition trimLeft (l : list ascii) : list ascii :=
  trimWith isSpace2 isSpace3 l.

(** At the end of the string the last rune is looked at: on the reversed
    bytes, the bytes of a rune come in reverse. *)
Definition trimRight (l : list ascii) : list ascii :=
  rev (trimWith (fun a b => isSpace2 b a) (fun a b c => isSpace3 c b a) (rev l)).

(** [strings.TrimSpace]. *)
Definition TrimSpace (s : string) : string :=
  string_of_list_ascii (trimRight (trimLeft (list_ascii_of_string s))).

(** The wall clock, as far as [time.Now().Format("2006-01-02")] reads it:
    a year of at most four digits, a month and a day. *)
Record date : Type := mkDate { year : nat; month : nat; day : nat }.

Definition digit (n : nat) : ascii := ascii_of_nat (48 + n mod 10).

Definition pad2 (n : nat) : string :=
  String (digit (n / 10)) (String (digit n) EmptyString).

Definition pad4 (n : nat) : string :=
  String (digit (n / 1000)) (String (digit (n / 100)) (pad2 n)).

(** [t.Format("2006-01-02")]. *)
Definition formatDate (d : date) : string :=
  pad4 (year d) ++ "-" ++ pad2 (month d) ++ "-" ++ pad2 (day d).

(** ** The outside world *)

(** What [bigquery.NewGCSReference] and [ExtractorTo] are given, and the
    fields [setupExtractor] sets afterwards. *)
Record Extractor : Type := mkExtractor {
  srcProject : string;
  srcDataset : string;
  srcTable : string;
  gcsURI : string;
  DisableHeader : bool;
  DestinationFormat : string;
  CompressionField : string
}.

(** A [*bigquery.Job]: its identifier. *)
Definition Job : Type := string.

(** The answers of the environment and of the three services to the calls
    of one request. *)
Record Cloud : Type := mkCloud {
  env_GCP_PROJECT : string;                       (* os.Getenv("GCP_PROJECT") *)
  now : date;                                     (* time.Now() *)
  logging_NewClient : string -> option error;
  bigquery_NewClient : string -> option error;
  dataset_Metadata : string -> result string;     (* md.FullID, or the error *)
  table_Metadata : string -> string -> result string;
  storage_NewClient : option error;
  bucket_Attrs : string -> option error;
  extractor_Run : Extractor -> result Job;
  job_Wait : Job -> result (option error)         (* status.Err(), or the error *)
}.

Inductive severity : Type := Info | Error.

Inductive client : Type := LoggingClient | BigQueryClient | StorageClient.

(** What the handler does to the outside, in order. *)
Inductive event : Type :=
| EvLog (sev : severity) (msg : string)           (* an entry of log bigquery-backup *)
| EvStdout (line : string)                        (* fmt.Println *)
| EvNewClient (c : client)
| EvClose (c : client)
| EvDatasetMetadata (dataset : string)
| EvTableMetadata (dataset table : string)
| EvBucketAttrs (bucket : string)
| EvExtractorRun (x : Extractor)
| EvJobWait (j : Job).

(** A client variable of the package behind its [sync.Once] guard: the
    guard has not fired and the variable is nil; it has fired and the
    constructor failed, which leaves the variable nil for good; or it has
    fired and the variable holds a client. *)
Inductive guarded : Type := Unset | NilClient | Client.

(** The process: [lc] with its guard [lcOnce], [bc] with its guard
    [bcOnce], and the trace so far. *)
Record proc : Type := mkProc {
  lcOnce : guarded;
  bcOnce : guarded;
  trace : list event
}.

Definition freshProc : proc := mkProc Unset Unset [].

(** How a call ends: it returns, it panics (a nil pointer is dereferenced),
    or the process exits ([log.Fatalf]). *)
Inductive outcome (A : Type) : Type :=
| Ret (a : A)
| Panic (why : string)
| Exit (why : string).
Arguments Ret {A} a.
Arguments Panic {A} why.
Arguments Exit {A} why.

Definition M (A : Type) : Type := proc -> outcome A * proc.

Definition ret {A} (a : A) : M A := fun p => (Ret a, p).

Definition bind {A B} (m : M A) (k : A -> M B) : M B :=
  fun p =>
    match m p with
    | (Ret a, p') => k a p'
    | (Panic w, p') => (Panic w, p')
    | (Exit w, p') => (Exit w, p')
    end.

Notation "x <- m ;; k" := (bind m (fun x => k))
  (at level 61, m at next level, right associativity).
Notation "' pat <- m ;; k" := (bind m (fun x => match x with pat => k end))
  (at level 61, pat pattern, m at next level, right associativity).

Definition emit (e : event) : M unit :=
  fun p => (Ret tt, mkProc (lcOnce p) (bcOnce p) (trace p ++ [e])).

Definition panic {A} (why : string) : M A := fun p => (Panic why, p).
Definition fatal {A} (why : string) : M A := fun p => (Exit why, p).

Definition nilDeref : string :=
  "runtime error: invalid memory address or nil pointer dereference".

(** [defer d] around a body: [d] runs when the body returns, also when it
    panics; a panic of [d] itself is the panic of the whole. *)
Definition defer {A} (d : M unit) (body : M A) : M A :=
  fun p =>
    match body p with
    | (Ret a, p') =>
        match d p' with
        | (Ret _, p'') => (Ret a, p'')
        | (Panic w, p'') => (Panic w, p'')
        | (Exit w, p'') => (Exit w, p'')
        end
    | (Panic w, p') =>
        match d p' with
        | (Ret _, p'') => (Panic w, p'')
        | (Panic w', p'') => (Panic w', p'')
        | (Exit w', p'') => (Exit w', p'')
        end
    | (Exit w, p') => (Exit w, p')
    end.

Definition isNil (e : option error) : bool :=
  match e with None => true | Some _ => false end.

(** ** Logging functions *)

Definition logInfo (msg : string) : M (option error) :=
  _ <- emit (EvLog Info msg) ;; ret None.

Definition logError (msg : string) : M (option error) :=
  _ <- emit (EvLog Error msg) ;; ret None.

(** ** Formatting functions *)

Definition setCSVAndJSONCompression (bp : backupParams)
  : M (option error * backupParams) :=
  let bp := set_compressionType gzipCompression bp in
  let lv := Sprintf "Backup format: %s, Backup compression: %s"
              [OStr (destinationFormat bp); OStr (compressionType bp)] in
  err <- logInfo lv ;;
  match err with
  | Some e => ret (Some e, bp)
  | None => ret (None, bp)
  end.

(** The tests on DEFLATE and SNAPPY and the reset to SNAPPY sit inside the
    branch of the empty compression type, as in the source; a compression
    type that is not empty goes straight to the final [return nil]. *)
Definition setAvroParquetCompression (bp : backupParams)
  : M (option error * backupParams) :=
  if compressionType bp =? "" then
    let bp := set_compressionType snappyCompression bp in
    let lv := Sprintf "BigQuery Table will be Backup format: %s, Backup compression: %s"
                [OStr (destinationFormat bp); OStr (compressionType bp)] in
    err <- logInfo lv ;;
    match err with
    | Some e => ret (Some e, bp)
    | None =>
        if (compressionType bp =? deflateCompression)
           || (compressionType bp =? snappyCompression) then
          let lv := Sprintf "Backup format: %s, Backup compression: %s"
                      [OStr (destinationFormat bp); OStr (compressionType bp)] in
          err <- logInfo lv ;;
          match err with
          | Some e => ret (Some e, bp)
          | None => ret (None, bp)
          end
        else
          ret (None, set_compressionType snappyCompression bp)
    end
  else ret (None, bp).

Definition compressed (r : option error * backupParams)
  : M (bool * option error * backupParams) :=
  match r with
  | (Some e, bp) => ret (false, Some e, bp)
  | (None, bp) => ret (true, None, bp)
  end.

Definition checkBackupFormat (bp : backupParams)
  : M (bool * option error * backupParams) :=
  if destinationFormat bp =? csvFormat then
    r <- setCSVAndJSONCompression bp ;; compressed r
  else if destinationFormat bp =? jsonFormat then
    r <- setCSVAndJSONCompression bp ;; compressed r
  else if destinationFormat bp =? avroFormat then
    r <- setAvroParquetCompression bp ;; compressed r
  else if destinationFormat bp =? parquetFormat then
    r <- setAvroParquetCompression bp ;; compressed r
  else
    let bp := set_destinationFormat avroFormat bp in
    let bp := set_compressionType snappyCompression bp in
    ret (true, None, bp).

(** ** The handler, against a given outside world

    The nil pointers the package produces and then uses are modelled: a
    client variable left nil by a failed constructor, on which the deferred
    [Close] of [setLogger] and [setBigQueryClient] panics, the table
    metadata after a failed fetch, and the job after a failed submission.
    The handler reaches the functions after [setBigQueryClient] only when
    [lc] and [bc] hold clients, and that is how they are modelled. *)

Section Handler.

Variable cloud : Cloud.

(** The outcome of [json.NewDecoder(r.Body).Decode(&pb)]: the decoded body,
    a key that is absent leaving the empty string in its field, or the
    decoder's error. *)
Definition request : Type := result postBodyParams.

(** *** Setup functions *)

Definition setProjectID (bp : backupParams) : M (option error * backupParams) :=
  let projectID := env_GCP_PROJECT cloud in
  if (projectID =? "") || (TrimSpace projectID =? "") then
    ret (Some "GCP_PROJECT environment variable is not set", bp)
  else
    ret (None, set_projectID projectID bp).

(** [guard.Do(f)]: [f] runs if the guard has not fired, and sets the
    variable. *)
Definition once (guard : proc -> guarded) (f : M unit) : M unit :=
  fun p => match guard p with Unset => f p | _ => (Ret tt, p) end.

Definition set_lc (v : guarded) : M unit :=
  fun p => (Ret tt, mkProc v (bcOnce p) (trace p)).

Definition set_bc (v : guarded) : M unit :=
  fun p => (Ret tt, mkProc (lcOnce p) v (trace p)).

(** [v.Close()] on a client variable: on a nil client it dereferences
    nil. *)
Definition closeClient (v : proc -> guarded) (c : client) : M unit :=
  fun p => match v p with Client => emit (EvClose c) p | _ => panic nilDeref p end.

(** The error of [logging.NewClient] is dropped, and [nil] is returned in
    any case; but after a failed constructor [lc] is nil and the deferred
    [lc.Close()] panics, in this call and in every later one. *)
Definition setLogger (bp : backupParams) : M (option error) :=
  defer (closeClient lcOnce LoggingClient)
    (_ <- once lcOnce
            (_ <- emit (EvNewClient LoggingClient) ;;
             match logging_NewClient cloud (projectID bp) with
             | Some e => set_lc NilClient
             | None => set_lc Client
             end) ;;
     ret None).

Definition setBigQueryClient (bp : backupParams) : M (option error) :=
  defer (closeClient bcOnce BigQueryClient)
    (_ <- once bcOnce
            (_ <- emit (EvNewClient BigQueryClient) ;;
             match bigquery_NewClient cloud (projectID bp) with
             | Some e =>
                 _ <- set_bc NilClient ;;
                 _ <- logError (Sprintf "Failed to create new BigQuery client: %v"
                                  [OErr (Some e)]) ;;
                 ret tt
             | None => set_bc Client
             end) ;;
     ret None).

Definition checkPostBody (pb : postBodyParams) : M (bool * option error) :=
  if DatasetName pb =? "" then
    err <- logError "Missing DatasetName in Post Body" ;;
    ret (false, err)
  else if TableName pb =? "" then
    err <- logError "Missing TableName in Post Body" ;;
    ret (false, err)
  else if StorageBucket pb =? "" then
    err <- logError "Missing StorageBucket in Post Body" ;;
    ret (false, err)
  else ret (true, None).

Definition decodePostBody (r : request) : result postBodyParams := r.

Definition setBackupParams (pb : postBodyParams) (bp : backupParams) : backupParams :=
  mkBackupParams (projectID bp) (DatasetName pb) (TableName pb)
                 (StorageBucket pb) (Compression pb) (Format pb).

Definition handleSetup (bp : backupParams) (r : request) : M (bool * backupParams) :=
  match decodePostBody r with
  | Err e =>
      _ <- logError (Sprintf "Failed to decode POST body: %v" [OErr (Some e)]) ;;
      ret (true, bp)
  | Ok pb =>
      '(ok, err) <- checkPostBody pb ;;
      if negb ok || negb (isNil err) then
        _ <- logError (Sprintf "Invalid POST body: %v" [OErr err]) ;;
        ret (true, bp)
      else
        let bp := setBackupParams pb bp in
        let p := Sprintf "Backup params: %s, %s, %s, %s"
                   [OStr (projectID bp); OStr (sourceDatasetID bp);
                    OStr (backupTableID bp); OStr (storageBucket bp)] in
        err <- logInfo p ;;
        match err with
        | Some e =>
            _ <- logError (Sprintf "Failed to set backup params: %v" [OErr (Some e)]) ;;
            ret (true, bp)
        | None => ret (false, bp)
        end
  end.

Definition setupExtractor (bp : backupParams) : Extractor :=
  let backup := Sprintf "%s.%s" [OStr (backupTableID bp); OStr (formatDate (now cloud))] in
  let gcsURI := Sprintf "gs://%s/%s/%s/%s-*.%s"
                  [OStr (storageBucket bp); OStr (sourceDatasetID bp); OStr backup;
                   OStr (backupTableID bp); OStr (ToLower (destinationFormat bp))] in
  mkExtractor (projectID bp) (sourceDatasetID bp) (backupTableID bp)
              gcsURI true (destinationFormat bp) (compressionType bp).

(** *** Validation functions *)

Definition validateDataset (bp : backupParams) : M (bool * option error) :=
  _ <- emit (EvDatasetMetadata (sourceDatasetID bp)) ;;
  let md := dataset_Metadata cloud (sourceDatasetID bp) in
  defer (emit (EvClose BigQueryClient))
    match md with
    | Err e => ret (false, Some e)
    | Ok FullID =>
        if FullID =? projectID bp ++ ":" ++ sourceDatasetID bp
        then ret (true, None)
        else ret (false, None)
    end.

(** [md.FullID] is read for [fmt.Println] before the error is looked at:
    after a failed fetch [md] is nil and the read panics. *)
Definition validateTable (bp : backupParams) : M (bool * option error) :=
  _ <- emit (EvTableMetadata (sourceDatasetID bp) (backupTableID bp)) ;;
  match table_Metadata cloud (sourceDatasetID bp) (backupTableID bp) with
  | Err e => panic nilDeref
  | Ok FullID =>
      _ <- emit (EvStdout FullID) ;;
      defer (emit (EvClose BigQueryClient))
        (if FullID =? projectID bp ++ ":" ++ sourceDatasetID bp ++ "." ++ backupTableID bp
         then ret (true, None)
         else ret (false, None))
  end.

Definition validateStorageBucket (bp : backupParams) : M (bool * option error) :=
  _ <- emit (EvNewClient StorageClient) ;;
  match storage_NewClient cloud with
  | Some e => ret (false, Some e)
  | None =>
      defer (emit (EvClose StorageClient))
        (_ <- emit (EvBucketAttrs (storageBucket bp)) ;;
         match bucket_Attrs cloud (storageBucket bp) with
         | Some e => ret (false, Some e)
         | None => ret (true, None)
         end)
  end.

Definition validateParams (bp : backupParams) : M bool :=
  '(validDataset, err) <- validateDataset bp ;;
  if negb (isNil err) || negb validDataset then
    _ <- logError "Dataset does not exist or is not valid" ;;
    ret true
  else
    '(validTable, err) <- validateTable bp ;;
    if negb (isNil err) || negb validTable then
      _ <- logError (Sprintf "Table does not exist or is not valid: %v" [OErr err]) ;;
      ret true
    else
      '(ok, err) <- validateStorageBucket bp ;;
      if negb ok || negb (isNil err) then
        _ <- logError "Problem validating storage bucket" ;;
        ret true
      else ret false.

(** *** The export job *)

Definition runExtractor (bp : backupParams) (extractor : Extractor)
  : M (option Job * option error) :=
  _ <- emit (EvExtractorRun extractor) ;;
  match extractor_Run cloud extractor with
  | Err e =>
      err <- logError (Sprintf "Error starting backup of table %s.%s to cloud storage: %v"
                         [OStr (sourceDatasetID bp); OStr (backupTableID bp); OErr (Some e)]) ;;
      match err with
      | Some e' => ret (None, Some e')
      | None => ret (None, err)
      end
  | Ok job =>
      err <- logInfo (Sprintf "Backup of table %s.%s started successfully, jobID: %s"
                        [OStr (sourceDatasetID bp); OStr (backupTableID bp); OStr job]) ;;
      match err with
      | Some e' => ret (None, Some e')
      | None => ret (Some job, None)
      end
  end.

(** In both error branches the inner [err] is the value of [logError], which
    shadows the error of the job: the branch ends in [return true, err] with
    that inner value.  [Wait] on a nil job dereferences it. *)
Definition waitForJob (bp : backupParams) (job : option Job) : M (bool * option error) :=
  match job with
  | None => panic nilDeref
  | Some j =>
      _ <- emit (EvJobWait j) ;;
      match job_Wait cloud j with
      | Err e =>
          err <- logError (Sprintf "Error waiting for backup of table %s.%s to cloud storage: %v"
                             [OStr (sourceDatasetID bp); OStr (backupTableID bp); OErr (Some e)]) ;;
          match err with
          | Some e' => ret (false, Some e')
          | None => ret (true, err)
          end
      | Ok (Some statusErr) =>
          err <- logError (Sprintf "Error backing up table %s.%s to cloud storage: %v"
                             [OStr (sourceDatasetID bp); OStr (backupTableID bp);
                              OErr (Some statusErr)]) ;;
          match err with
          | Some e' => ret (false, Some e')
          | None => ret (true, err)
          end
      | Ok None =>
          err <- logInfo (Sprintf "Backup of table %s.%s completed successfully"
                            [OStr (sourceDatasetID bp); OStr (backupTableID bp)]) ;;
          match err with
          | Some e' => ret (false, Some e')
          | None => ret (true, None)
          end
      end
  end.

Definition backupBigQueryTable (bp : backupParams) : M (bool * option error) :=
  let extractor := setupExtractor bp in
  err <- logInfo (Sprintf "Starting backup of table %s.%s to cloud storage"
                    [OStr (sourceDatasetID bp); OStr (backupTableID bp)]) ;;
  match err with
  | Some e => ret (false, Some e)
  | None =>
      '(job, err) <- runExtractor bp extractor ;;
      match err with
      | Some e => ret (false, Some e)
      | None =>
          '(ok, err) <- waitForJob bp job ;;
          if negb ok then ret (false, err) else ret (true, None)
      end
  end.

(** *** The HTTP function

    Nothing is written to the response: when the handler returns, the
    hosting framework answers with its default status, success. *)
Definition bigQueryBackup (r : request) : M unit :=
  '(err, bp) <- setProjectID zeroBackupParams ;;
  match err with
  | Some _ => ret tt
  | None =>
  err <- setLogger bp ;;
  match err with
  | Some e => fatal (Sprintf "Failed to set logger: %v" [OErr (Some e)])
  | None =>
  err <- setBigQueryClient bp ;;
  match err with
  | Some _ => ret tt
  | None =>
  '(hasError, bp) <- handleSetup bp r ;;
  if hasError then ret tt else
  hasError <- validateParams bp ;;
  if hasError then ret tt else
  '(ok, err, bp) <- checkBackupFormat bp ;;
  if negb ok || negb (isNil err) then
    err <- logError "Problem validating destination format" ;;
    match err with
    | Some _ => ret tt
    | None => ret tt
    end
  else
  '(ok, err) <- backupBigQueryTable bp ;;
  if negb ok then
    match err with
    | Some _ =>
        err <- logError "Problem backing up BigQuery table" ;;
        match err with
        | Some _ => ret tt
        | None => ret tt
        end
    | None => ret tt
    end
  else ret tt
  end end end.

End Handler.

(** ** Reading a run *)

Definition run {A} (m : M A) : outcome A * list event :=
  let r := m freshProc in (fst r, trace (snd r)).

(** The calls that look at or act on a remote resource: the dataset, table
    and bucket lookups, the job submission and the wait for the job. *)
Definition isRemote (e : event) : bool :=
  match e with
  | EvDatasetMetadata _ | EvTableMetadata _ _ | EvBucketAttrs _
  | EvExtractorRun _ | EvJobWait _ => true
  | _ => false
  end.

Definition errorLog (t : list event) : list string :=
  flat_map (fun e => match e with EvLog Error msg => [msg] | _ => [] end) t.

(** The required field the request leaves empty, first in the order of
    [checkPostBody]. *)
Definition missingField (pb : postBodyParams) : option string :=
  if DatasetName pb =? "" then Some "DatasetName"
  else if TableName pb =? "" then Some "TableName"
  else if StorageBucket pb =? "" then Some "StorageBucket"
  else None.

(** The resolver as a table: what [checkBackupFormat] leaves in [bp],
    read off a run of the source function. *)
Definition resolved (bp : backupParams) : backupParams :=
  match fst (checkBackupFormat bp freshProc) with
  | Ret (_, _, bp') => bp'
  | _ => bp
  end.

(** The request of the scenarios: project proj1, table sales.orders, bucket
    backups-bucket, with a format and a compression type. *)
Definition scenario (fmt comp : string) : backupParams :=
  mkBackupParams "proj1" "sales" "orders" "backups-bucket" comp fmt.

(** A world in which every service answers well: the dataset and the table
    exist in project proj1, the bucket exists, a submitted job gets the
    identifier job-1 and ends in the status [status]. *)
Definition cloudWith (status : option error) : Cloud :=
  mkCloud "proj1" (mkDate 2026 11 1)
          (fun _ => None) (fun _ => None)
          (fun ds => Ok ("proj1:" ++ ds))
          (fun ds tb => Ok ("proj1:" ++ ds ++ "." ++ tb))
          None (fun _ => None)
          (fun _ => Ok "job-1")
          (fun _ => Ok status).

Definition body (fmt comp : string) : postBodyParams :=
  mkPostBodyParams "sales" "orders" "backups-bucket" fmt comp.

(** A triple for runs: from every process state, [m] adds to the trace only
    events that satisfy [P], and a value it returns satisfies [Q]. *)
Definition sat {A} (m : M A) (P : event -> Prop) (Q : A -> Prop) : Prop :=
  forall p, exists t,
    trace (snd (m p)) = (trace p ++ t)%list /\ Forall P t /\
    (forall a, fst (m p) = Ret a -> Q a).

Definition anything {A} : A -> Prop := fun _ => True.

(** The error entry of the handler's format-validation branch. *)
Definition formatProblem : event :=
  EvLog Error "Problem validating destination format".

(** ** Vocabulary of the further properties *)

(** The test of [setProjectID] lets the project of the environment pass. *)
Definition projectSet (cloud : Cloud) : bool :=
  negb ((env_GCP_PROJECT cloud =? "") || (TrimSpace (env_GCP_PROJECT cloud) =? "")).

(** A client variable holds a client once its [Do] has run: it held one
    before, or the guard had not fired and the constructor answers without
    error. *)
Definition ready (v : guarded) (answer : option error) : bool :=
  match v with
  | Client => true
  | NilClient => false
  | Unset => isNil answer
  end.

(** From the guards [l] and [b], the three setup steps of the handler go
    through: the project is set and both client variables hold a client. *)
Definition setupPasses (cloud : Cloud) (l b : guarded) : bool :=
  projectSet cloud
  && ready l (logging_NewClient cloud (env_GCP_PROJECT cloud))
  && ready b (bigquery_NewClient cloud (env_GCP_PROJECT cloud)).

(** Every byte of [s] is ASCII white space. *)
Definition blank (s : string) : bool :=
  forallb isSpace (list_ascii_of_string s).

(** A visible ASCII byte: below 128 and not white space. *)
Definition visible (c : ascii) : bool :=
  (nat_of_ascii c <? 128)%nat && negb (isSpace c).

(** Some byte of [s] is an ASCII byte that is not white space. *)
Definition hasVisibleASCII (s : string) : bool :=
  existsb (fun c => (nat_of_ascii c <? 128)%nat && negb (isSpace c))
          (list_ascii_of_string s).

(** The submission of the export job and the wait for it. *)
Definition isJobEvent (e : event) : bool :=
  match e with
  | EvExtractorRun _ | EvJobWait _ => true
  | _ => false
  end.

(** The parameters the handler holds once [handleSetup] has accepted the
    body [pb]: the project of the environment and the five fields of the
    body. *)
Definition paramsOf (cloud : Cloud) (pb : postBodyParams) : backupParams :=
  setBackupParams pb (set_projectID (env_GCP_PROJECT cloud) zeroBackupParams).

(** The three resource checks of [validateParams], as tests on the answers
    of the services. *)
Definition datasetValid (cloud : Cloud) (bp : backupParams) : bool :=
  match dataset_Metadata cloud (sourceDatasetID bp) with
  | Ok id => id =? projectID bp ++ ":" ++ sourceDatasetID bp
  | Err _ => false
  end.

Definition tableValid (cloud : Cloud) (bp : backupParams) : bool :=
  match table_Metadata cloud (sourceDatasetID bp) (backupTableID bp) with
  | Ok id => id =? projectID bp ++ ":" ++ sourceDatasetID bp ++ "." ++ backupTableID bp
  | Err _ => false
  end.

Definition bucketValid (cloud : Cloud) (bp : backupParams) : bool :=
  isNil (storage_NewClient cloud) && isNil (bucket_Attrs cloud (storageBucket bp)).

Definition validResources (cloud : Cloud) (bp : backupParams) : bool :=
  datasetValid cloud bp && tableValid cloud bp && bucketValid cloud bp.

(** A computation that never ends the process. *)
Definition neverExits {A} (m : M A) : Prop :=
  forall p w, fst (m p) <> Exit w.

(** Worlds that differ from a given one in one answer. *)
Definition withProject (v : string) (c : Cloud) : Cloud :=
  mkCloud v (now c) (logging_NewClient c) (bigquery_NewClient c)
          (dataset_Metadata c) (table_Metadata c)
          (storage_NewClient c) (bucket_Attrs c) (extractor_Run c) (job_Wait c).

Definition withLogging (f : string -> option error) (c : Cloud) : Cloud :=
  mkCloud (env_GCP_PROJECT c) (now c) f (bigquery_NewClient c)
          (dataset_Metadata c) (table_Metadata c)
          (storage_NewClient c) (bucket_Attrs c) (extractor_Run c) (job_Wait c).

Definition withBigQuery (f : string -> option error) (c : Cloud) : Cloud :=
  mkCloud (env_GCP_PROJECT c) (now c) (logging_NewClient c) f
          (dataset_Metadata c) (table_Metadata c)
          (storage_NewClient c) (bucket_Attrs c) (extractor_Run c) (job_Wait c).

(** The two bytes of U+00A0, the no-break space. *)
Definition noBreakSpace : string :=
  String (ascii_of_nat 194) (String (ascii_of_nat 160) EmptyString).

Definition withDataset (f : string -> result string) (c : Cloud) : Cloud :=
  mkCloud (env_GCP_PROJECT c) (now c) (logging_NewClient c) (bigquery_NewClient c)
          f (table_Metadata c)
          (storage_NewClient c) (bucket_Attrs c) (extractor_Run c) (job_Wait c).

Definition withTable (f : string -> string -> result string) (c : Cloud) : Cloud :=
  mkCloud (env_GCP_PROJECT c) (now c) (logging_NewClient c) (bigquery_NewClient c)
          (dataset_Metadata c) f
          (storage_NewClient c) (bucket_Attrs c) (extractor_Run c) (job_Wait c).

Definition withRun (f : Extractor -> result Job) (c : Cloud) : Cloud :=
  mkCloud (env_GCP_PROJECT c) (now c) (logging_NewClient c) (bigquery_NewClient c)
          (dataset_Metadata c)
          (table_Metadata c) (storage_NewClient c) (bucket_Attrs c) f (job_Wait c).

(** The process [p] after the events [t]. *)
Definition logged (p : proc) (t : list event) : proc :=
  mkProc (lcOnce p) (bcOnce p) (trace p ++ t).

(** The error entry of the handler's branch for a failed backup. *)
Definition backupProblem : event :=
  EvLog Error "Problem backing up BigQuery table".

(** What must hold for the extractor [x] to be submitted on the request
    [r]: the body was decoded with its three names in place, the three
    resource checks pass, and [x] is built from the resolved parameters. *)
Definition dulySubmitted (cloud : Cloud) (r : request) (x : Extractor) : Prop :=
  exists pb,
    r = Ok pb /\ missingField pb = None /\
    blank (env_GCP_PROJECT cloud) = false /\
    validResources cloud (paramsOf cloud pb) = true /\
    x = setupExtractor cloud (resolved (paramsOf cloud pb)).

(** How many times the trace [t] calls the constructor of the clients of
    the kind [c]. *)
Definition isNewClient (c : client) (e : event) : bool :=
  match e, c with
  | EvNewClient LoggingClient, LoggingClient
  | EvNewClient BigQueryClient, BigQueryClient
  | EvNewClient StorageClient, StorageClient => true
  | _, _ => false
  end.

Definition constructorCalls (c : client) (t : list event) : nat :=
  List.length (filter (isNewClient c) t).

(** ** The command of the local emulator ([main.go])

    Its [init] reads [PORT] and [GCP_PROJECT]: the port of the server is
    8080 unless [PORT] is set, an empty [GCP_PROJECT] ends the process, and
    three [fmt.Printf] announce the start, each printing [os.Getenv] again
    rather than the variable [port].  The result is the port [main] hands to
    [funcframework.Start] and the text printed. *)

Definition newline : string := String (ascii_of_nat 10) EmptyString.

Definition defaultPort : string := "8080".

Definition mainInit (envPORT envGCP_PROJECT : string) : outcome (string * list string) :=
  let port := if envPORT =? "" then defaultPort else envPORT in
  if envGCP_PROJECT =? "" then
    Exit "GCP_PROJECT environment variable must be set."
  else
    Ret (port,
         [Sprintf ("BigQuery Backup starting up on PORT %v" ++ newline)
                  [OStr envPORT];
          Sprintf ("GCP_PROJECT: %v" ++ newline ++ newline) [OStr envGCP_PROJECT];
          Sprintf ("Open a new tab in your terminal and run:" ++ newline ++ newline
                   ++ "// curl http://localhost:%v") [OStr envPORT]]).

(** * Properties *)

(** ** Strings *)

Lemma append_empty_r (s : string) : s ++ "" = s.
Proof. induction s as [|c s IH]; simpl; [reflexivity | now rewrite IH]. Qed.

Lemma append_assoc (a b c : string) : (a ++ b) ++ c = a ++ (b ++ c).
Proof. induction a as [|x a IH]; simpl; [reflexivity | now rewrite IH]. Qed.

Lemma length_append (a b : string) :
  String.length (a ++ b) = String.length a + String.length b.
Proof. induction a as [|x a IH]; simpl; [reflexivity | now rewrite IH]. Qed.

(** A common suffix can be cancelled. *)
Lemma append_inv_tail (a b c : string) : a ++ c = b ++ c -> a = b.
Proof.
  revert b; induction a as [|x a IH]; intros [|y b] H; simpl in H.
  - reflexivity.
  - apply (f_equal String.length) in H; simpl in H.
    rewrite length_append in H; lia.
  - apply (f_equal String.length) in H; simpl in H.
    rewrite length_append in H; lia.
  - injection H as -> H. f_equal. now apply IH.
Qed.

(** ** The format and compression resolver *)

Ltac string_cases :=
  repeat match goal with
    | |- context [String.eqb ?a ?b] => destruct (String.eqb_spec a b)
    end.

Lemma checkBackupFormat_returns (bp : backupParams) (p : proc) :
  fst (checkBackupFormat bp p) = Ret (true, None, resolved bp).
Proof.
  unfold resolved, checkBackupFormat, setCSVAndJSONCompression,
    setAvroParquetCompression.
  destruct (destinationFormat bp =? csvFormat); [reflexivity|].
  destruct (destinationFormat bp =? jsonFormat); [reflexivity|].
  destruct (destinationFormat bp =? avroFormat);
    [destruct (compressionType bp =? ""); reflexivity|].
  destruct (destinationFormat bp =? parquetFormat);
    [destruct (compressionType bp =? ""); reflexivity|].
  reflexivity.
Qed.

Lemma resolved_csv_json (bp : backupParams) :
  destinationFormat bp = "CSV" \/ destinationFormat bp = "JSON" ->
  resolved bp = set_compressionType "GZIP" bp.
Proof.
  destruct bp as [pr ds tb bk ct fmt]; simpl.
  intros [-> | ->]; reflexivity.
Qed.

Lemma resolved_avro_parquet (bp : backupParams) :
  destinationFormat bp = "AVRO" \/ destinationFormat bp = "PARQUET" ->
  resolved bp =
    if compressionType bp =? "" then set_compressionType "SNAPPY" bp else bp.
Proof.
  destruct bp as [pr ds tb bk ct fmt]; simpl.
  intros [-> | ->]; unfold resolved, checkBackupFormat, setAvroParquetCompression;
    simpl; destruct (ct =? ""); reflexivity.
Qed.

Lemma resolved_other (bp : backupParams) :
  destinationFormat bp <> "CSV" -> destinationFormat bp <> "JSON" ->
  destinationFormat bp <> "AVRO" -> destinationFormat bp <> "PARQUET" ->
  resolved bp = set_compressionType "SNAPPY" (set_destinationFormat "AVRO" bp).
Proof.
  intros H1 H2 H3 H4. unfold resolved, checkBackupFormat.
  unfold csvFormat, jsonFormat, avroFormat, parquetFormat.
  apply String.eqb_neq in H1, H2, H3, H4.
  rewrite H1, H2, H3, H4. reflexivity.
Qed.

Lemma format_cases (s : string) :
  s = "CSV" \/ s = "JSON" \/ s = "AVRO" \/ s = "PARQUET" \/
  (s <> "CSV" /\ s <> "JSON" /\ s <> "AVRO" /\ s <> "PARQUET").
Proof.
  destruct (string_dec s "CSV"); [tauto|].
  destruct (string_dec s "JSON"); [tauto|].
  destruct (string_dec s "AVRO"); [tauto|].
  destruct (string_dec s "PARQUET"); tauto.
Qed.

(** C5.  For destination format CSV or JSON, [checkBackupFormat] returns
    [true, nil] and leaves the compression type GZIP, whatever compression
    type the caller supplied; the other fields are untouched. *)
Theorem csv_json_compression_forced_to_gzip (bp : backupParams) (p : proc) :
  destinationFormat bp = "CSV" \/ destinationFormat bp = "JSON" ->
  exists bp',
    fst (checkBackupFormat bp p) = Ret (true, None, bp') /\
    compressionType bp' = "GZIP" /\
    destinationFormat bp' = destinationFormat bp.
Proof.
  intros H. exists (resolved bp). split; [apply checkBackupFormat_returns|].
  rewrite (resolved_csv_json bp H). split; reflexivity.
Qed.

Lemma csv_json_compression_forced_to_gzip_witness :
  (destinationFormat (scenario "CSV" "ZSTD") = "CSV" \/
   destinationFormat (scenario "CSV" "ZSTD") = "JSON") /\
  exists bp',
    fst (checkBackupFormat (scenario "CSV" "ZSTD") freshProc) = Ret (true, None, bp') /\
    compressionType bp' = "GZIP" /\
    destinationFormat bp' = destinationFormat (scenario "CSV" "ZSTD").
Proof.
  split; [left; reflexivity|].
  apply (csv_json_compression_forced_to_gzip (scenario "CSV" "ZSTD") freshProc).
  left; reflexivity.
Defined.

(** C6.  For destination format AVRO or PARQUET, [checkBackupFormat] leaves
    SNAPPY when the caller supplied no compression type, and leaves the
    supplied value when it is SNAPPY or DEFLATE. *)
Theorem avro_parquet_default_and_kept (bp : backupParams) (p : proc) :
  destinationFormat bp = "AVRO" \/ destinationFormat bp = "PARQUET" ->
  exists bp',
    fst (checkBackupFormat bp p) = Ret (true, None, bp') /\
    (compressionType bp = "" -> compressionType bp' = "SNAPPY") /\
    (compressionType bp = "SNAPPY" \/ compressionType bp = "DEFLATE" ->
     compressionType bp' = compressionType bp).
Proof.
  intros H. exists (resolved bp). split; [apply checkBackupFormat_returns|].
  rewrite (resolved_avro_parquet bp H).
  destruct (String.eqb_spec (compressionType bp) "") as [E | E]; split.
  - reflexivity.
  - rewrite E. intros [D | D]; discriminate D.
  - intros D. contradiction.
  - reflexivity.
Qed.

Lemma avro_parquet_default_and_kept_witness :
  (destinationFormat (scenario "PARQUET" "DEFLATE") = "AVRO" \/
   destinationFormat (scenario "PARQUET" "DEFLATE") = "PARQUET") /\
  exists bp',
    fst (checkBackupFormat (scenario "PARQUET" "DEFLATE") freshProc)
      = Ret (true, None, bp') /\
    (compressionType (scenario "PARQUET" "DEFLATE") = "" ->
     compressionType bp' = "SNAPPY") /\
    (compressionType (scenario "PARQUET" "DEFLATE") = "SNAPPY" \/
     compressionType (scenario "PARQUET" "DEFLATE") = "DEFLATE" ->
     compressionType bp' = compressionType (scenario "PARQUET" "DEFLATE")).
Proof.
  split; [right; reflexivity|].
  apply (avro_parquet_default_and_kept (scenario "PARQUET" "DEFLATE") freshProc).
  right; reflexivity.
Defined.

(** C7.  [checkBackupFormat] always leaves a destination format among CSV,
    JSON, AVRO and PARQUET; a requested format outside these four, the empty
    string included, is resolved to AVRO with compression SNAPPY. *)
Theorem format_resolves_into_the_enumeration (bp : backupParams) (p : proc) :
  exists bp',
    fst (checkBackupFormat bp p) = Ret (true, None, bp') /\
    In (destinationFormat bp') ["CSV"; "JSON"; "AVRO"; "PARQUET"] /\
    (~ In (destinationFormat bp) ["CSV"; "JSON"; "AVRO"; "PARQUET"] ->
     destinationFormat bp' = "AVRO" /\ compressionType bp' = "SNAPPY").
Proof.
  exists (resolved bp). split; [apply checkBackupFormat_returns|]. split.
  - destruct (format_cases (destinationFormat bp)) as [H|[H|[H|[H|[H1[H2[H3 H4]]]]]]].
    + rewrite resolved_csv_json by tauto. simpl. rewrite H. tauto.
    + rewrite resolved_csv_json by tauto. simpl. rewrite H. tauto.
    + rewrite resolved_avro_parquet by tauto.
      destruct (compressionType bp =? ""); simpl; rewrite H; tauto.
    + rewrite resolved_avro_parquet by tauto.
      destruct (compressionType bp =? ""); simpl; rewrite H; tauto.
    + rewrite resolved_other by assumption. simpl. tauto.
  - intros H. rewrite resolved_other.
    + split; reflexivity.
    + intros E; apply H; rewrite E; simpl; tauto.
    + intros E; apply H; rewrite E; simpl; tauto.
    + intros E; apply H; rewrite E; simpl; tauto.
    + intros E; apply H; rewrite E; simpl; tauto.
Qed.

(** C10.  Running [checkBackupFormat] on its own result changes nothing:
    the second run returns [true, nil] with the same parameters. *)
Theorem checkBackupFormat_idempotent (bp : backupParams) (p p' : proc) :
  exists bp1,
    fst (checkBackupFormat bp p) = Ret (true, None, bp1) /\
    fst (checkBackupFormat bp1 p') = Ret (true, None, bp1).
Proof.
  exists (resolved bp). split; [apply checkBackupFormat_returns|].
  rewrite checkBackupFormat_returns. do 2 f_equal.
  destruct (format_cases (destinationFormat bp)) as [H|[H|[H|[H|[H1[H2[H3 H4]]]]]]].
  - rewrite (resolved_csv_json bp) by tauto.
    rewrite resolved_csv_json by (simpl; tauto). reflexivity.
  - rewrite (resolved_csv_json bp) by tauto.
    rewrite resolved_csv_json by (simpl; tauto). reflexivity.
  - rewrite (resolved_avro_parquet bp) by tauto.
    destruct (compressionType bp =? "") eqn:E;
      rewrite resolved_avro_parquet by (simpl; tauto); simpl;
      [reflexivity | now rewrite E].
  - rewrite (resolved_avro_parquet bp) by tauto.
    destruct (compressionType bp =? "") eqn:E;
      rewrite resolved_avro_parquet by (simpl; tauto); simpl;
      [reflexivity | now rewrite E].
  - rewrite (resolved_other bp) by assumption.
    rewrite resolved_avro_parquet by (simpl; tauto). reflexivity.
Qed.

(** C2, at the input where the code leaves the claim: format AVRO with the
    compression type ZSTD comes back from [checkBackupFormat] with ZSTD
    still in place, and so does PARQUET; nothing resets it to SNAPPY. *)
Theorem avro_zstd_is_not_reset :
  fst (checkBackupFormat (scenario "AVRO" "ZSTD") freshProc)
    = Ret (true, None, scenario "AVRO" "ZSTD") /\
  fst (checkBackupFormat (scenario "PARQUET" "ZSTD") freshProc)
    = Ret (true, None, scenario "PARQUET" "ZSTD").
Proof. split; reflexivity. Qed.

(** ** The destination object path *)

Lemma formatDate_length (d : date) : String.length (formatDate d) = 10.
Proof. reflexivity. Qed.

Lemma gcsURI_setupExtractor (cloud : Cloud) (bp : backupParams) :
  gcsURI (setupExtractor cloud bp) =
    "gs://" ++ storageBucket bp ++ "/" ++ sourceDatasetID bp ++ "/" ++
    backupTableID bp ++ "." ++ formatDate (now cloud) ++ "/" ++
    backupTableID bp ++ "-*." ++ ToLower (destinationFormat bp).
Proof.
  unfold setupExtractor, gcsURI.
  cbn [Sprintf Ascii.eqb Bool.eqb isVerb orb show append].
  rewrite !append_empty_r.
  do 5 f_equal. f_equal. f_equal.
  rewrite append_assoc. f_equal.
Qed.

Lemma resolved_extension (bp : backupParams) :
  In (destinationFormat (resolved bp), ToLower (destinationFormat (resolved bp)))
     [("CSV", "csv"); ("JSON", "json"); ("AVRO", "avro"); ("PARQUET", "parquet")].
Proof.
  destruct (format_cases (destinationFormat bp)) as [H|[H|[H|[H|[H1[H2[H3 H4]]]]]]].
  - rewrite resolved_csv_json by tauto. simpl. rewrite H. simpl. tauto.
  - rewrite resolved_csv_json by tauto. simpl. rewrite H. simpl. tauto.
  - rewrite resolved_avro_parquet by tauto.
    destruct (compressionType bp =? ""); simpl; rewrite H; simpl; tauto.
  - rewrite resolved_avro_parquet by tauto.
    destruct (compressionType bp =? ""); simpl; rewrite H; simpl; tauto.
  - rewrite resolved_other by assumption. simpl. tauto.
Qed.

(** C3.  For the parameters [checkBackupFormat] resolves, [setupExtractor]
    builds the destination URI
    gs://{bucket}/{dataset}/{table}.{date}/{table}-*.{format in lower case},
    the date being the ten characters of the current date as YYYY-MM-DD and
    the extension one of csv, json, avro, parquet, matching the resolved
    format. *)
Theorem destination_uri_of_resolved_params
  (cloud : Cloud) (bp0 : backupParams) (p : proc) :
  exists bp,
    fst (checkBackupFormat bp0 p) = Ret (true, None, bp) /\
    gcsURI (setupExtractor cloud bp) =
      "gs://" ++ storageBucket bp ++ "/" ++ sourceDatasetID bp ++ "/" ++
      backupTableID bp ++ "." ++ formatDate (now cloud) ++ "/" ++
      backupTableID bp ++ "-*." ++ ToLower (destinationFormat bp) /\
    String.length (formatDate (now cloud)) = 10 /\
    In (destinationFormat bp, ToLower (destinationFormat bp))
       [("CSV", "csv"); ("JSON", "json"); ("AVRO", "avro"); ("PARQUET", "parquet")].
Proof.
  exists (resolved bp0). split; [apply checkBackupFormat_returns|].
  split; [apply gcsURI_setupExtractor|].
  split; [apply formatDate_length | apply resolved_extension].
Qed.

(** The scenario of the specification: no format and no compression type
    asked for, on the first of November 2026. *)
Example destination_uri_scenario :
  gcsURI (setupExtractor (cloudWith None) (resolved (scenario "" "")))
    = "gs://backups-bucket/sales/orders.2026-11-01/orders-*.avro".
Proof. reflexivity. Qed.

(** ** Dataset and table validation *)

Lemma validateDataset_result (cloud : Cloud) (bp : backupParams) (p : proc) :
  fst (validateDataset cloud bp p) =
    match dataset_Metadata cloud (sourceDatasetID bp) with
    | Err e => Ret (false, Some e)
    | Ok id => Ret (id =? projectID bp ++ ":" ++ sourceDatasetID bp, None)
    end.
Proof.
  unfold validateDataset, bind, defer, emit, ret. cbn [fst snd].
  destruct (dataset_Metadata cloud (sourceDatasetID bp)) as [id | e]; [|reflexivity].
  destruct (id =? projectID bp ++ ":" ++ sourceDatasetID bp); reflexivity.
Qed.

Lemma validateTable_result (cloud : Cloud) (bp : backupParams) (p : proc) :
  fst (validateTable cloud bp p) =
    match table_Metadata cloud (sourceDatasetID bp) (backupTableID bp) with
    | Err e => Panic nilDeref
    | Ok id =>
        Ret (id =? projectID bp ++ ":" ++ sourceDatasetID bp ++ "." ++ backupTableID bp,
             None)
    end.
Proof.
  unfold validateTable, bind, defer, emit, ret, panic. cbn [fst snd].
  destruct (table_Metadata cloud (sourceDatasetID bp) (backupTableID bp)) as [id | e];
    [|reflexivity].
  cbn [fst snd].
  destruct (id =? projectID bp ++ ":" ++ sourceDatasetID bp ++ "." ++ backupTableID bp);
    reflexivity.
Qed.

(** C8.  [validateDataset] returns [true] exactly when the metadata fetch
    succeeds and its identifier is {project}:{dataset}; [validateTable]
    returns [true] exactly when the fetch succeeds and its identifier is
    {project}:{dataset}.{table}.  A fetch that succeeds with the identifier
    of another project makes both return [false, nil]. *)
Theorem validation_is_exact_identifier_match
  (cloud : Cloud) (bp : backupParams) (p : proc) :
  ((exists err, fst (validateDataset cloud bp p) = Ret (true, err)) <->
   dataset_Metadata cloud (sourceDatasetID bp)
     = Ok (projectID bp ++ ":" ++ sourceDatasetID bp)) /\
  ((exists err, fst (validateTable cloud bp p) = Ret (true, err)) <->
   table_Metadata cloud (sourceDatasetID bp) (backupTableID bp)
     = Ok (projectID bp ++ ":" ++ sourceDatasetID bp ++ "." ++ backupTableID bp)) /\
  (forall other : string, other <> projectID bp ->
     (dataset_Metadata cloud (sourceDatasetID bp)
        = Ok (other ++ ":" ++ sourceDatasetID bp) ->
      fst (validateDataset cloud bp p) = Ret (false, None)) /\
     (table_Metadata cloud (sourceDatasetID bp) (backupTableID bp)
        = Ok (other ++ ":" ++ sourceDatasetID bp ++ "." ++ backupTableID bp) ->
      fst (validateTable cloud bp p) = Ret (false, None))).
Proof.
  rewrite validateDataset_result, validateTable_result.
  repeat split.
  - intros [err H].
    destruct (dataset_Metadata cloud (sourceDatasetID bp)) as [id | e];
      [| discriminate H].
    injection H as H _. apply String.eqb_eq in H. now subst.
  - intros ->. exists None. now rewrite String.eqb_refl.
  - intros [err H].
    destruct (table_Metadata cloud (sourceDatasetID bp) (backupTableID bp)) as [id | e];
      [| discriminate H].
    injection H as H _. apply String.eqb_eq in H. now subst.
  - intros ->. exists None. now rewrite String.eqb_refl.
  - intros ->. do 2 f_equal. apply String.eqb_neq. intros E.
    apply append_inv_tail in E. contradiction.
  - intros ->. do 2 f_equal. apply String.eqb_neq. intros E.
    apply append_inv_tail in E. contradiction.
Qed.

(** ** Required fields *)

Lemma handleSetup_missing_field
  (bp : backupParams) (pb : postBodyParams) (f : string) (p : proc) :
  missingField pb = Some f ->
  handleSetup bp (Ok pb) p =
    (Ret (true, bp),
     mkProc (lcOnce p) (bcOnce p)
       (trace p ++ [EvLog Error ("Missing " ++ f ++ " in Post Body");
                    EvLog Error "Invalid POST body: <nil>"])).
Proof.
  unfold missingField, handleSetup, checkPostBody, decodePostBody, logError,
    bind, emit, ret.
  destruct (DatasetName pb =? "");
    [| destruct (TableName pb =? ""); [| destruct (StorageBucket pb =? "")]];
    intros H; try discriminate H; injection H as <-;
    cbn; rewrite <- app_assoc; reflexivity.
Qed.

Lemma setProjectID_run (cloud : Cloud) (bp : backupParams) (p : proc) :
  setProjectID cloud bp p =
    if projectSet cloud
    then (Ret (None, set_projectID (env_GCP_PROJECT cloud) bp), p)
    else (Ret (Some "GCP_PROJECT environment variable is not set", bp), p).
Proof.
  unfold setProjectID, projectSet.
  destruct ((env_GCP_PROJECT cloud =? "") || (TrimSpace (env_GCP_PROJECT cloud) =? ""));
    reflexivity.
Qed.

(** The setup steps of the handler, from the guards [l] and [b] up to the
    call of [handleSetup]: unfolded in the equation [E] of the run, by
    cases on the project test, the guards and the answers of the two
    constructors. *)
Ltac run_setup cloud l b E :=
  unfold bigQueryBackup in E; unfold bind at 1 in E;
  rewrite setProjectID_run in E;
  unfold setupPasses;
  destruct (projectSet cloud);
  [ cbv beta iota delta [bind setLogger setBigQueryClient logError once closeClient
      set_lc set_bc defer emit ret panic fst snd lcOnce bcOnce trace projectID
      set_projectID zeroBackupParams] in E;
    destruct l, b;
    destruct (logging_NewClient cloud (env_GCP_PROJECT cloud));
    destruct (bigquery_NewClient cloud (env_GCP_PROJECT cloud));
    cbv beta iota delta [bind emit ret panic fst snd lcOnce bcOnce trace] in E
  | ].

(** C4.  When [dataset_name], [table_name] or [storage_bucket] is empty in
    the decoded body, the handler stops, by returning or in a panic of the
    setup, without any dataset, table or bucket lookup, job submission or
    wait, and an entry of its error log that reports a missing field names
    the first empty one in the order dataset, table, bucket.  When the setup
    goes through, the handler returns and that entry is in the log, once. *)
Theorem missing_field_aborts_before_remote_checks
  (cloud : Cloud) (pb : postBodyParams) (f : string) (l b : guarded) :
  missingField pb = Some f ->
  let r := bigQueryBackup cloud (Ok pb) (mkProc l b []) in
  existsb isRemote (trace (snd r)) = false /\
  (fst r = Ret tt \/ fst r = Panic nilDeref) /\
  (forall m, In m (filter (prefix "Missing ") (errorLog (trace (snd r)))) ->
             m = "Missing " ++ f ++ " in Post Body") /\
  (setupPasses cloud l b = true ->
   fst r = Ret tt /\
   filter (prefix "Missing ") (errorLog (trace (snd r)))
     = ["Missing " ++ f ++ " in Post Body"]).
Proof.
  intros H r. subst r.
  set (res := bigQueryBackup cloud (Ok pb) (mkProc l b [])).
  assert (E : res = bigQueryBackup cloud (Ok pb) (mkProc l b [])) by reflexivity.
  clearbody res.
  run_setup cloud l b E.
  all: rewrite ?(handleSetup_missing_field _ _ _ _ H) in E.
  all: rewrite E; cbn [fst snd lcOnce bcOnce trace app ready isNil andb].
  all: unfold missingField in H.
  all: destruct (DatasetName pb =? "");
    [| destruct (TableName pb =? ""); [| destruct (StorageBucket pb =? "")]];
    try discriminate H; injection H as <-.
  all: cbn.
  all: repeat split; try (left; reflexivity); try (right; reflexivity);
    try discriminate; try (intros m [<- | []]; reflexivity); try (intros m []).
Qed.

Lemma missing_field_aborts_before_remote_checks_witness :
  missingField (mkPostBodyParams "sales" "" "" "CSV" "") = Some "TableName" /\
  let r := bigQueryBackup (cloudWith None)
             (Ok (mkPostBodyParams "sales" "" "" "CSV" "")) freshProc in
  existsb isRemote (trace (snd r)) = false /\
  (fst r = Ret tt \/ fst r = Panic nilDeref) /\
  (forall m, In m (filter (prefix "Missing ") (errorLog (trace (snd r)))) ->
             m = "Missing " ++ "TableName" ++ " in Post Body") /\
  (setupPasses (cloudWith None) Unset Unset = true ->
   fst r = Ret tt /\
   filter (prefix "Missing ") (errorLog (trace (snd r)))
     = ["Missing " ++ "TableName" ++ " in Post Body"]).
Proof.
  split; [reflexivity|].
  apply (missing_field_aborts_before_remote_checks (cloudWith None)
           (mkPostBodyParams "sales" "" "" "CSV" "") "TableName" Unset Unset).
  reflexivity.
Defined.

(** ** Reasoning on traces *)

Section Triples.

Context {A B : Type}.
Variable P : event -> Prop.

Lemma sat_ret (a : A) (Q : A -> Prop) : Q a -> sat (ret a) P Q.
Proof.
  intros H p. exists []. cbn. rewrite app_nil_r.
  repeat split; [constructor|]. intros a' E. now injection E as <-.
Qed.

Lemma sat_panic (w : string) (Q : A -> Prop) : sat (panic w) P Q.
Proof.
  intros p. exists []. cbn. rewrite app_nil_r.
  repeat split; [constructor | discriminate].
Qed.

Lemma sat_fatal (w : string) (Q : A -> Prop) : sat (fatal w) P Q.
Proof.
  intros p. exists []. cbn. rewrite app_nil_r.
  repeat split; [constructor | discriminate].
Qed.

Lemma sat_bind (m : M A) (k : A -> M B) (Q1 : A -> Prop) (Q2 : B -> Prop) :
  sat m P Q1 -> (forall a, Q1 a -> sat (k a) P Q2) -> sat (bind m k) P Q2.
Proof.
  intros Hm Hk p. destruct (Hm p) as (t1 & E1 & F1 & R1). unfold bind.
  destruct (m p) as [[a | w | w] p1]; cbn [fst snd] in *.
  - destruct (Hk a (R1 a eq_refl) p1) as (t2 & E2 & F2 & R2).
    exists (t1 ++ t2)%list. rewrite E2, E1, app_assoc.
    repeat split; [apply Forall_app; now split | exact R2].
  - exists t1. repeat split; [exact E1 | exact F1 | discriminate].
  - exists t1. repeat split; [exact E1 | exact F1 | discriminate].
Qed.

Lemma sat_defer (d : M unit) (m : M A) (Q : A -> Prop) :
  sat d P anything -> sat m P Q -> sat (defer d m) P Q.
Proof.
  intros Hd Hm p. destruct (Hm p) as (t1 & E1 & F1 & R1). unfold defer.
  destruct (m p) as [[a | w | w] p1]; cbn [fst snd] in *.
  - destruct (Hd p1) as (t2 & E2 & F2 & _).
    exists (t1 ++ t2)%list.
    destruct (d p1) as [[u | w | w] p2]; cbn [fst snd] in *;
      rewrite E2, E1, app_assoc;
      (repeat split; [apply Forall_app; now split |]);
      [exact R1 | discriminate | discriminate].
  - destruct (Hd p1) as (t2 & E2 & F2 & _).
    exists (t1 ++ t2)%list.
    destruct (d p1) as [[u | w' | w'] p2]; cbn [fst snd] in *;
      rewrite E2, E1, app_assoc;
      (repeat split; [apply Forall_app; now split | discriminate]).
  - exists t1. repeat split; [exact E1 | exact F1 | discriminate].
Qed.

Lemma sat_weaken (m : M A) (Q Q' : A -> Prop) :
  (forall a, Q a -> Q' a) -> sat m P Q -> sat m P Q'.
Proof.
  intros H Hm p. destruct (Hm p) as (t & E & F & R).
  exists t. repeat split; [exact E | exact F | intros a Ha; apply H, R, Ha].
Qed.

End Triples.

Section TriplesOfThePackage.

Variable P : event -> Prop.

Lemma sat_emit (e : event) : P e -> sat (emit e) P anything.
Proof.
  intros H p. exists [e]. cbn.
  repeat split. constructor; [exact H | constructor].
Qed.

Lemma sat_bind_any {A B} (m : M A) (k : A -> M B) (Q : B -> Prop) :
  sat m P anything -> (forall a, sat (k a) P Q) -> sat (bind m k) P Q.
Proof. intros Hm Hk. apply (sat_bind P m k anything Q Hm). intros a _. apply Hk. Qed.

Lemma sat_once (guard : proc -> guarded) (f : M unit) :
  sat f P anything -> sat (once guard f) P anything.
Proof.
  intros Hf p. unfold once. destruct (guard p); [apply Hf | |];
    exists []; cbn; rewrite app_nil_r; repeat split; constructor.
Qed.

Lemma sat_set_lc (v : guarded) : sat (set_lc v) P anything.
Proof. intros p. exists []. cbn. rewrite app_nil_r. repeat split. constructor. Qed.

Lemma sat_set_bc (v : guarded) : sat (set_bc v) P anything.
Proof. intros p. exists []. cbn. rewrite app_nil_r. repeat split. constructor. Qed.

Lemma sat_closeClient (v : proc -> guarded) (c : client) :
  P (EvClose c) -> sat (closeClient v c) P anything.
Proof.
  intros H p. unfold closeClient. destruct (v p).
  - exists []. cbn. rewrite app_nil_r. repeat split. constructor.
  - exists []. cbn. rewrite app_nil_r. repeat split. constructor.
  - now apply sat_emit.
Qed.

Lemma sat_logInfo (msg : string) :
  P (EvLog Info msg) -> sat (logInfo msg) P (fun err => err = None).
Proof.
  intros H. unfold logInfo. apply sat_bind_any; [now apply sat_emit|].
  intros _. now apply sat_ret.
Qed.

Lemma sat_logError (msg : string) :
  P (EvLog Error msg) -> sat (logError msg) P (fun err => err = None).
Proof.
  intros H. unfold logError. apply sat_bind_any; [now apply sat_emit|].
  intros _. now apply sat_ret.
Qed.

End TriplesOfThePackage.

Lemma sat_strengthen {A} (P : event -> Prop) (m : M A) (Q : A -> Prop) :
  sat m P anything -> (forall p a, fst (m p) = Ret a -> Q a) -> sat m P Q.
Proof.
  intros Hm HQ p. destruct (Hm p) as (t & E & F & _).
  exists t. repeat split; [exact E | exact F | apply HQ].
Qed.

(** One step of a triple along the shape of the code; [ev] settles the
    side condition of an emitted event. *)
Ltac sat_step ev :=
  lazymatch goal with
  | |- sat (ret _) _ _ => apply sat_ret; exact I
  | |- sat (panic _) _ _ => apply sat_panic
  | |- sat (fatal _) _ _ => apply sat_fatal
  | |- sat (emit _) _ _ => apply sat_emit; ev
  | |- sat (defer _ _) _ _ => apply sat_defer
  | |- sat (once _ _) _ _ => apply sat_once
  | |- sat (set_lc _) _ _ => apply sat_set_lc
  | |- sat (set_bc _) _ _ => apply sat_set_bc
  | |- sat (closeClient _ _) _ _ => apply sat_closeClient; ev
  | |- sat (bind _ _) _ _ => apply sat_bind_any; [| intros ?]
  | |- sat (match ?x with _ => _ end) _ _ => destruct x
  end.

Ltac unfold_package :=
  unfold bigQueryBackup, backupBigQueryTable, waitForJob, runExtractor,
    validateParams, validateDataset, validateTable, validateStorageBucket,
    handleSetup, checkPostBody, decodePostBody, setBigQueryClient, setLogger,
    setProjectID, setCSVAndJSONCompression, setAvroParquetCompression,
    compressed, logInfo, logError.

Lemma sat_checkBackupFormat (P : event -> Prop) (bp : backupParams) :
  (forall msg, P (EvLog Info msg)) ->
  sat (checkBackupFormat bp) P (fun r => r = (true, None, resolved bp)).
Proof.
  intros H. apply sat_strengthen.
  - unfold checkBackupFormat. unfold_package.
    repeat sat_step ltac:(apply H).
  - intros p a E. rewrite checkBackupFormat_returns in E. now injection E as <-.
Qed.

(** C9.  [checkBackupFormat] returns [true] and a nil error for every
    [backupParams], from every process state; and no run of the handler,
    whatever the request and the answers of the services, logs the entry
    of the branch that follows a failed format validation. *)
Theorem format_validation_never_fails
  (cloud : Cloud) (r : request) (l b : guarded) (bp : backupParams) (p : proc) :
  (exists bp', fst (checkBackupFormat bp p) = Ret (true, None, bp')) /\
  ~ In formatProblem (trace (snd (bigQueryBackup cloud r (mkProc l b [])))).
Proof.
  split; [exists (resolved bp); apply checkBackupFormat_returns|].
  assert (S : sat (bigQueryBackup cloud r) (fun e => e <> formatProblem) anything).
  { unfold_package.
    repeat lazymatch goal with
      | |- sat (bind (checkBackupFormat ?x) _) _ _ =>
          apply (sat_bind _ _ _ (fun r => r = (true, None, resolved x)));
          [ apply sat_checkBackupFormat; intros msg; discriminate
          | intros [[ok err] bp'] E; injection E as -> -> ->; cbn [negb orb isNil] ]
      | |- _ =>
          sat_step ltac:(unfold formatProblem; let E := fresh in
                         intro E; try discriminate E; cbn in E; discriminate E)
      end. }
  destruct (S (mkProc l b [])) as (t & E & F & _). rewrite E. cbn [trace app].
  intros I. rewrite Forall_forall in F. exact (F _ I eq_refl).
Qed.

(** ** The export job *)

(** Whatever the status of the job, [waitForJob] returns [true] with a nil
    error once [Wait] itself has returned without error. *)
Lemma waitForJob_after_wait
  (cloud : Cloud) (bp : backupParams) (j : Job) (status : option error) (p : proc) :
  job_Wait cloud j = Ok status ->
  fst (waitForJob cloud bp (Some j) p) = Ret (true, None).
Proof.
  intros H. unfold waitForJob, logError, logInfo, bind, emit, ret. cbn [fst snd].
  rewrite H. destruct status; reflexivity.
Qed.

(** C1, at the input where the code leaves the claim: the job job-1 of table
    sales.orders ends with the failure status "internal failure".  The
    failure is logged, but [waitForJob] and [backupBigQueryTable] both
    return [true] with a nil error, and the handler returns with that one
    entry in its error log. *)
Theorem failed_job_is_returned_as_success :
  fst (waitForJob (cloudWith (Some "internal failure")) (resolved (scenario "" ""))
         (Some "job-1") freshProc) = Ret (true, None) /\
  fst (backupBigQueryTable (cloudWith (Some "internal failure"))
         (resolved (scenario "" "")) freshProc) = Ret (true, None) /\
  fst (run (bigQueryBackup (cloudWith (Some "internal failure")) (Ok (body "" ""))))
    = Ret tt /\
  errorLog (snd (run (bigQueryBackup (cloudWith (Some "internal failure"))
                        (Ok (body "" "")))))
    = ["Error backing up table sales.orders to cloud storage: internal failure"].
Proof. repeat split. Qed.

(** The whole run of the scenario of the specification, every resource in
    place and the job ending well. *)
Example successful_run :
  run (bigQueryBackup (cloudWith None) (Ok (body "" ""))) =
    (Ret tt,
     [EvNewClient LoggingClient; EvClose LoggingClient;
      EvNewClient BigQueryClient; EvClose BigQueryClient;
      EvLog Info "Backup params: proj1, sales, orders, backups-bucket";
      EvDatasetMetadata "sales"; EvClose BigQueryClient;
      EvTableMetadata "sales" "orders"; EvStdout "proj1:sales.orders";
      EvClose BigQueryClient;
      EvNewClient StorageClient; EvBucketAttrs "backups-bucket";
      EvClose StorageClient;
      EvLog Info "Starting backup of table sales.orders to cloud storage";
      EvExtractorRun
        (mkExtractor "proj1" "sales" "orders"
           "gs://backups-bucket/sales/orders.2026-11-01/orders-*.avro"
           true "AVRO" "SNAPPY");
      EvLog Info "Backup of table sales.orders started successfully, jobID: job-1";
      EvJobWait "job-1";
      EvLog Info "Backup of table sales.orders completed successfully"]).
Proof. reflexivity. Qed.

(** * Further properties of the package *)

(** ** The project identifier *)

Lemma isSpace2_high (a b : ascii) :
  isSpace2 a b = true -> visible a = false /\ visible b = false.
Proof.
  unfold isSpace2, visible. cbv zeta.
  rewrite andb_true_iff, orb_true_iff, !Nat.eqb_eq.
  intros [Ha Hb].
  assert (A : (nat_of_ascii a <? 128)%nat = false) by (apply Nat.ltb_ge; lia).
  assert (B : (nat_of_ascii b <? 128)%nat = false) by (apply Nat.ltb_ge; lia).
  rewrite A, B. split; reflexivity.
Qed.

Lemma isSpace3_high (a b c : ascii) :
  isSpace3 a b c = true ->
  visible a = false /\ visible b = false /\ visible c = false.
Proof.
  unfold isSpace3, visible. cbv zeta.
  rewrite !orb_true_iff, !andb_true_iff, !orb_true_iff, !andb_true_iff,
    !Nat.eqb_eq, !Nat.leb_le.
  intros H.
  assert (A : (nat_of_ascii a <? 128)%nat = false) by (apply Nat.ltb_ge; lia).
  assert (B : (nat_of_ascii b <? 128)%nat = false) by (apply Nat.ltb_ge; lia).
  assert (C : (nat_of_ascii c <? 128)%nat = false) by (apply Nat.ltb_ge; lia).
  rewrite A, B, C. repeat split.
Qed.

Lemma trimWith_blank sp2 sp3 (l : list ascii) :
  forallb isSpace l = true -> trimWith sp2 sp3 l = [].
Proof.
  induction l as [|c l IH]; simpl; [reflexivity|].
  destruct (isSpace c); simpl; [exact IH | discriminate].
Qed.

Section TrimKeepsVisible.

Variable sp2 : ascii -> ascii -> bool.
Variable sp3 : ascii -> ascii -> ascii -> bool.
Hypothesis sp2_high : forall a b,
  sp2 a b = true -> visible a = false /\ visible b = false.
Hypothesis sp3_high : forall a b c,
  sp3 a b c = true -> visible a = false /\ visible b = false /\ visible c = false.

(** Trimming drops white space and bytes of 128 and more only, so a
    visible ASCII byte stays. *)
Lemma trimWith_keeps_visible (n : nat) :
  forall l, List.length l <= n ->
    existsb visible l = true -> existsb visible (trimWith sp2 sp3 l) = true.
Proof.
  induction n as [|n IH]; intros [|a l1] L H; simpl in *;
    try discriminate; try lia.
  destruct (isSpace a) eqn:Sa.
  { unfold visible at 1 in H. rewrite Sa, andb_false_r in H.
    apply IH; [lia | exact H]. }
  destruct l1 as [|b l2]; [simpl; exact H|].
  destruct (sp2 a b) eqn:S2.
  { destruct (sp2_high _ _ S2) as [Va Vb]. simpl in H. rewrite Va, Vb in H.
    apply IH; [simpl in L; lia | exact H]. }
  destruct l2 as [|c l3]; [exact H|].
  destruct (sp3 a b c) eqn:S3; [| exact H].
  destruct (sp3_high _ _ _ S3) as (Va & Vb & Vc). simpl in H.
  rewrite Va, Vb, Vc in H.
  apply IH; [simpl in L; lia | exact H].
Qed.

End TrimKeepsVisible.

Lemma existsb_rev {A} (f : A -> bool) (l : list A) :
  existsb f (rev l) = existsb f l.
Proof.
  induction l as [|a l IH]; simpl; [reflexivity|].
  rewrite existsb_app, IH. simpl. rewrite orb_false_r. apply orb_comm.
Qed.

(** A string of ASCII white space is trimmed to nothing. *)
Lemma TrimSpace_blank (s : string) : blank s = true -> TrimSpace s = "".
Proof.
  unfold TrimSpace, blank, trimLeft, trimRight. intros H.
  rewrite (trimWith_blank _ _ _ H). reflexivity.
Qed.

(** A string with a visible ASCII byte is not trimmed to nothing. *)
Lemma TrimSpace_visible (s : string) :
  hasVisibleASCII s = true -> TrimSpace s <> "".
Proof.
  unfold TrimSpace, hasVisibleASCII, trimLeft, trimRight.
  fold visible. intros H.
  apply (trimWith_keeps_visible _ _ isSpace2_high isSpace3_high _ _ (le_n _)) in H.
  rewrite <- existsb_rev in H.
  apply (trimWith_keeps_visible _ _
           (fun a b E => proj1 (and_comm _ _) (isSpace2_high b a E))
           (fun a b c E =>
              match isSpace3_high c b a E with
              | conj Vc (conj Vb Va) => conj Va (conj Vb Vc)
              end) _ _ (le_n _)) in H.
  rewrite <- existsb_rev in H.
  destruct (rev _); [discriminate H | discriminate].
Qed.

Lemma projectSet_blank (cloud : Cloud) :
  blank (env_GCP_PROJECT cloud) = true -> projectSet cloud = false.
Proof.
  intros H. unfold projectSet. rewrite (TrimSpace_blank _ H).
  rewrite orb_true_r. reflexivity.
Qed.

Lemma projectSet_visible (cloud : Cloud) :
  hasVisibleASCII (env_GCP_PROJECT cloud) = true -> projectSet cloud = true.
Proof.
  intros H. unfold projectSet.
  destruct (String.eqb_spec (env_GCP_PROJECT cloud) "") as [E | _];
    [rewrite E in H; discriminate H|].
  destruct (String.eqb_spec (TrimSpace (env_GCP_PROJECT cloud)) "") as [E | _];
    [| reflexivity].
  exfalso. exact (TrimSpace_visible _ H E).
Qed.

Lemma projectSet_not_blank (cloud : Cloud) :
  projectSet cloud = true -> blank (env_GCP_PROJECT cloud) = false.
Proof.
  intros H. destruct (blank (env_GCP_PROJECT cloud)) eqn:B; [| reflexivity].
  rewrite (projectSet_blank _ B) in H. discriminate H.
Qed.

(** X1.  [setProjectID] refuses a [GCP_PROJECT] that is empty or made of
    white space only, leaving the parameters as they were; a value with a
    visible ASCII byte is accepted and stored as it is, surrounding white
    space included. *)
Theorem setProjectID_refuses_blank_keeps_value
  (cloud : Cloud) (bp : backupParams) (p : proc) :
  (blank (env_GCP_PROJECT cloud) = true ->
   setProjectID cloud bp p
     = (Ret (Some "GCP_PROJECT environment variable is not set", bp), p)) /\
  (hasVisibleASCII (env_GCP_PROJECT cloud) = true ->
   setProjectID cloud bp p
     = (Ret (None, set_projectID (env_GCP_PROJECT cloud) bp), p)).
Proof.
  rewrite setProjectID_run. split; intros H.
  - rewrite (projectSet_blank _ H). reflexivity.
  - rewrite (projectSet_visible _ H). reflexivity.
Qed.

(** The table of the package's test of [setProjectID]. *)
Example setProjectID_test_table :
  fst (run (setProjectID (withProject "test-project" (cloudWith None)) zeroBackupParams))
    = Ret (None, set_projectID "test-project" zeroBackupParams) /\
  fst (run (setProjectID (withProject "" (cloudWith None)) zeroBackupParams))
    = Ret (Some "GCP_PROJECT environment variable is not set", zeroBackupParams) /\
  fst (run (setProjectID (withProject "   " (cloudWith None)) zeroBackupParams))
    = Ret (Some "GCP_PROJECT environment variable is not set", zeroBackupParams).
Proof. repeat split. Qed.

(** X2.  With a blank [GCP_PROJECT] the handler returns at once: no client
    is made, nothing is logged, no service is called, whatever the
    request. *)
Theorem blank_project_handler_does_nothing
  (cloud : Cloud) (r : request) (p : proc) :
  blank (env_GCP_PROJECT cloud) = true ->
  bigQueryBackup cloud r p = (Ret tt, p).
Proof.
  intros H. unfold bigQueryBackup, bind.
  rewrite setProjectID_run, (projectSet_blank _ H). reflexivity.
Qed.

Lemma blank_project_handler_does_nothing_witness :
  blank (env_GCP_PROJECT (withProject "   " (cloudWith None))) = true /\
  bigQueryBackup (withProject "   " (cloudWith None)) (Ok (body "CSV" "")) freshProc
    = (Ret tt, freshProc).
Proof.
  split; [reflexivity|].
  apply (blank_project_handler_does_nothing
           (withProject "   " (cloudWith None)) (Ok (body "CSV" "")) freshProc).
  reflexivity.
Defined.

(** White space beyond ASCII is trimmed as well: a project that is one
    no-break space, alone or around ASCII white space, is refused, and the
    handler does nothing. *)
Example noBreakSpace_project_is_refused :
  TrimSpace noBreakSpace = "" /\
  TrimSpace (" " ++ noBreakSpace ++ " x " ++ noBreakSpace) = "x" /\
  run (bigQueryBackup (withProject noBreakSpace (cloudWith None)) (Ok (body "" "")))
    = (Ret tt, []).
Proof. repeat split. Qed.

(** A constructor that fails leaves its variable nil, and the handler
    panics in the deferred [Close], before it reads the body. *)
Example failed_constructor_panics :
  run (bigQueryBackup (withLogging (fun _ => Some "denied") (cloudWith None))
         (Ok (body "" "")))
    = (Panic nilDeref, [EvNewClient LoggingClient]) /\
  run (bigQueryBackup (withBigQuery (fun _ => Some "denied") (cloudWith None))
         (Ok (body "" "")))
    = (Panic nilDeref,
       [EvNewClient LoggingClient; EvClose LoggingClient;
        EvNewClient BigQueryClient;
        EvLog Error "Failed to create new BigQuery client: denied"]).
Proof. split; reflexivity. Qed.

(** ** The request body *)

Lemma handleSetup_decode_error (bp : backupParams) (e : error) (p : proc) :
  handleSetup bp (Err e) p =
    (Ret (true, bp),
     mkProc (lcOnce p) (bcOnce p)
       (trace p ++ [EvLog Error ("Failed to decode POST body: " ++ e)])).
Proof.
  unfold handleSetup, decodePostBody, logError, bind, emit, ret.
  cbn. rewrite append_empty_r. reflexivity.
Qed.

Lemma handleSetup_accepted (bp : backupParams) (pb : postBodyParams) (p : proc) :
  missingField pb = None ->
  handleSetup bp (Ok pb) p =
    (Ret (false, setBackupParams pb bp),
     mkProc (lcOnce p) (bcOnce p)
       (trace p ++ [EvLog Info ("Backup params: " ++ projectID bp ++ ", "
                                ++ DatasetName pb ++ ", " ++ TableName pb ++ ", "
                                ++ StorageBucket pb)])).
Proof.
  unfold missingField, handleSetup, checkPostBody, decodePostBody, logError, logInfo,
    bind, emit, ret.
  destruct (DatasetName pb =? ""); [discriminate|].
  destruct (TableName pb =? ""); [discriminate|].
  destruct (StorageBucket pb =? ""); [discriminate|].
  intros _. cbn. rewrite append_empty_r. reflexivity.
Qed.

Lemma missingField_none (pb : postBodyParams) :
  missingField pb = None <->
  DatasetName pb <> "" /\ TableName pb <> "" /\ StorageBucket pb <> "".
Proof.
  unfold missingField.
  destruct (String.eqb_spec (DatasetName pb) "");
    [split; [discriminate | tauto]|].
  destruct (String.eqb_spec (TableName pb) "");
    [split; [discriminate | tauto]|].
  destruct (String.eqb_spec (StorageBucket pb) "");
    [split; [discriminate | tauto]|].
  tauto.
Qed.

Lemma handleSetup_returns (bp : backupParams) (r : request) (p : proc)
  (hasError : bool) (bp' : backupParams) :
  fst (handleSetup bp r p) = Ret (hasError, bp') ->
  if hasError then bp' = bp
  else exists pb, r = Ok pb /\ missingField pb = None /\ bp' = setBackupParams pb bp.
Proof.
  destruct r as [pb | e].
  - destruct (missingField pb) as [f|] eqn:M.
    + rewrite (handleSetup_missing_field bp pb f p M). cbn.
      intros H. injection H as <- <-. reflexivity.
    + rewrite (handleSetup_accepted bp pb p M). cbn.
      intros H. injection H as <- <-. exists pb. auto.
  - rewrite handleSetup_decode_error. cbn.
    intros H. injection H as <- <-. reflexivity.
Qed.

(** X3.  [handleSetup] reports no error exactly when the body was decoded
    and its dataset, table and bucket names are all non-empty strings (white
    space counts as a name); it then hands on the five fields of the body,
    format and compression as sent, beside the project it already had.  In
    every other case it returns [true] and the parameters are untouched. *)
Theorem handleSetup_accepts_exactly_complete_bodies
  (bp : backupParams) (r : request) (p : proc) :
  (forall bp', fst (handleSetup bp r p) = Ret (false, bp') <->
     exists pb, r = Ok pb /\
       DatasetName pb <> "" /\ TableName pb <> "" /\ StorageBucket pb <> "" /\
       bp' = mkBackupParams (projectID bp) (DatasetName pb) (TableName pb)
                            (StorageBucket pb) (Compression pb) (Format pb)) /\
  (forall bp', fst (handleSetup bp r p) = Ret (true, bp') -> bp' = bp) /\
  (exists hasError bp', fst (handleSetup bp r p) = Ret (hasError, bp')).
Proof.
  split; [| split].
  - intros bp'. split.
    + intros H. apply handleSetup_returns in H. destruct H as (pb & -> & M & ->).
      exists pb. apply missingField_none in M. tauto.
    + intros (pb & -> & H1 & H2 & H3 & ->).
      rewrite handleSetup_accepted; [reflexivity|].
      apply missingField_none. tauto.
  - intros bp' H. exact (handleSetup_returns _ _ _ _ _ H).
  - destruct r as [pb | e].
    + destruct (missingField pb) as [f|] eqn:M.
      * rewrite (handleSetup_missing_field bp pb f p M). do 2 eexists. reflexivity.
      * rewrite (handleSetup_accepted bp pb p M). do 2 eexists. reflexivity.
    + rewrite handleSetup_decode_error. do 2 eexists. reflexivity.
Qed.

(** X4.  When the body cannot be decoded, the handler stops, by returning
    or in a panic of the setup, without any lookup, submission or wait; and
    when the setup goes through, it returns and the last thing it has done
    is to log the decoder's error at severity Error. *)
Theorem decode_error_aborts_before_remote_checks
  (cloud : Cloud) (e : error) (l b : guarded) :
  existsb isRemote (trace (snd (bigQueryBackup cloud (Err e) (mkProc l b [])))) = false /\
  (fst (bigQueryBackup cloud (Err e) (mkProc l b [])) = Ret tt \/
   fst (bigQueryBackup cloud (Err e) (mkProc l b [])) = Panic nilDeref) /\
  (setupPasses cloud l b = true ->
   fst (bigQueryBackup cloud (Err e) (mkProc l b [])) = Ret tt /\
   exists pre,
     trace (snd (bigQueryBackup cloud (Err e) (mkProc l b [])))
       = (pre ++ [EvLog Error ("Failed to decode POST body: " ++ e)])%list).
Proof.
  set (res := bigQueryBackup cloud (Err e) (mkProc l b [])).
  assert (E : res = bigQueryBackup cloud (Err e) (mkProc l b [])) by reflexivity.
  clearbody res.
  run_setup cloud l b E.
  all: rewrite ?handleSetup_decode_error in E.
  all: rewrite E; cbn [fst snd lcOnce bcOnce trace app ready isNil andb logged].
  all: repeat split; try (left; reflexivity); try (right; reflexivity);
    try discriminate.
  all: match goal with
       | |- exists pre, ?t = _ => exists (removelast t); reflexivity
       end.
Qed.

(** ** The resource checks *)

Lemma logged_logged (p : proc) (t u : list event) :
  logged (logged p t) u = logged p (t ++ u).
Proof. unfold logged. cbn. now rewrite app_assoc. Qed.

Lemma emit_logged (e : event) (p : proc) : emit e p = (Ret tt, logged p [e]).
Proof. reflexivity. Qed.

Lemma validateDataset_run (cloud : Cloud) (bp : backupParams) (p : proc) :
  validateDataset cloud bp p =
    (match dataset_Metadata cloud (sourceDatasetID bp) with
     | Err e => Ret (false, Some e)
     | Ok id => Ret (id =? projectID bp ++ ":" ++ sourceDatasetID bp, None)
     end,
     logged p [EvDatasetMetadata (sourceDatasetID bp); EvClose BigQueryClient]).
Proof.
  unfold validateDataset, bind, defer. rewrite emit_logged.
  destruct (dataset_Metadata cloud (sourceDatasetID bp)) as [id | e].
  - destruct (id =? projectID bp ++ ":" ++ sourceDatasetID bp);
      unfold ret; cbn [fst snd]; rewrite emit_logged, logged_logged; reflexivity.
  - unfold ret; cbn [fst snd]; rewrite emit_logged, logged_logged; reflexivity.
Qed.

Lemma validateTable_run (cloud : Cloud) (bp : backupParams) (p : proc) :
  validateTable cloud bp p =
    match table_Metadata cloud (sourceDatasetID bp) (backupTableID bp) with
    | Err e =>
        (Panic nilDeref,
         logged p [EvTableMetadata (sourceDatasetID bp) (backupTableID bp)])
    | Ok id =>
        (Ret (id =? projectID bp ++ ":" ++ sourceDatasetID bp ++ "." ++ backupTableID bp,
              None),
         logged p [EvTableMetadata (sourceDatasetID bp) (backupTableID bp);
                   EvStdout id; EvClose BigQueryClient])
    end.
Proof.
  unfold validateTable, bind, defer. rewrite emit_logged.
  destruct (table_Metadata cloud (sourceDatasetID bp) (backupTableID bp)) as [id | e];
    [| reflexivity].
  rewrite emit_logged, logged_logged.
  destruct (id =? projectID bp ++ ":" ++ sourceDatasetID bp ++ "." ++ backupTableID bp);
    unfold ret; cbn [fst snd]; rewrite emit_logged, logged_logged; reflexivity.
Qed.

Lemma validateStorageBucket_run (cloud : Cloud) (bp : backupParams) (p : proc) :
  validateStorageBucket cloud bp p =
    match storage_NewClient cloud with
    | Some e => (Ret (false, Some e), logged p [EvNewClient StorageClient])
    | None =>
        (match bucket_Attrs cloud (storageBucket bp) with
         | Some e => Ret (false, Some e)
         | None => Ret (true, None)
         end,
         logged p [EvNewClient StorageClient; EvBucketAttrs (storageBucket bp);
                   EvClose StorageClient])
    end.
Proof.
  unfold validateStorageBucket, bind, defer. rewrite emit_logged.
  destruct (storage_NewClient cloud) as [e |]; [reflexivity|].
  rewrite emit_logged, logged_logged.
  destruct (bucket_Attrs cloud (storageBucket bp));
    unfold ret; cbn [fst snd]; rewrite emit_logged, logged_logged; reflexivity.
Qed.

Lemma logError_run (msg : string) (p : proc) :
  logError msg p = (Ret None, logged p [EvLog Error msg]).
Proof. reflexivity. Qed.

Lemma logInfo_run (msg : string) (p : proc) :
  logInfo msg p = (Ret None, logged p [EvLog Info msg]).
Proof. reflexivity. Qed.

(** The whole of [validateParams]: its result and what it has done, by the
    answers of the services. *)
Lemma validateParams_run (cloud : Cloud) (bp : backupParams) (p : proc) :
  validateParams cloud bp p =
    let ds := sourceDatasetID bp in
    let tb := backupTableID bp in
    let t0 := [EvDatasetMetadata ds; EvClose BigQueryClient] in
    if datasetValid cloud bp then
      match table_Metadata cloud ds tb with
      | Err e => (Panic nilDeref, logged p (t0 ++ [EvTableMetadata ds tb])%list)
      | Ok id =>
          let t1 := (t0 ++ [EvTableMetadata ds tb; EvStdout id; EvClose BigQueryClient])%list in
          if tableValid cloud bp then
            match storage_NewClient cloud with
            | Some _ =>
                (Ret true,
                 logged p (t1 ++ [EvNewClient StorageClient;
                                  EvLog Error "Problem validating storage bucket"])%list)
            | None =>
                let t2 := (t1 ++ [EvNewClient StorageClient;
                                  EvBucketAttrs (storageBucket bp);
                                  EvClose StorageClient])%list in
                match bucket_Attrs cloud (storageBucket bp) with
                | Some _ =>
                    (Ret true,
                     logged p (t2 ++ [EvLog Error "Problem validating storage bucket"])%list)
                | None => (Ret false, logged p t2)
                end
            end
          else
            (Ret true,
             logged p (t1 ++ [EvLog Error "Table does not exist or is not valid: <nil>"])%list)
      end
    else
      (Ret true,
       logged p (t0 ++ [EvLog Error "Dataset does not exist or is not valid"])%list).
Proof.
  unfold validateParams, datasetValid, tableValid.
  unfold bind at 1. rewrite validateDataset_run.
  destruct (dataset_Metadata cloud (sourceDatasetID bp)) as [id | e].
  2: { cbn [isNil negb orb]. unfold bind. rewrite logError_run, logged_logged.
       reflexivity. }
  destruct (id =? projectID bp ++ ":" ++ sourceDatasetID bp).
  2: { cbn [isNil negb orb]. unfold bind. rewrite logError_run, logged_logged.
       reflexivity. }
  cbn [isNil negb orb]. unfold bind at 1. rewrite validateTable_run.
  destruct (table_Metadata cloud (sourceDatasetID bp) (backupTableID bp)) as [id' | e];
    [| rewrite logged_logged; reflexivity].
  destruct (id' =? projectID bp ++ ":" ++ sourceDatasetID bp ++ "." ++ backupTableID bp).
  2: { cbn [isNil negb orb]. unfold bind. rewrite logError_run, !logged_logged.
       reflexivity. }
  cbn [isNil negb orb]. unfold bind at 1. rewrite validateStorageBucket_run.
  destruct (storage_NewClient cloud) as [e |].
  { cbn [isNil negb orb]. unfold bind. rewrite logError_run, !logged_logged.
    reflexivity. }
  destruct (bucket_Attrs cloud (storageBucket bp)) as [e |].
  { cbn [isNil negb orb]. unfold bind. rewrite logError_run, !logged_logged.
    reflexivity. }
  cbn [isNil negb orb]. unfold ret. rewrite !logged_logged. reflexivity.
Qed.

(** X5.  [validateParams] reports no error exactly when the dataset and the
    table answer with the exact identifiers of this project, the storage
    client is made and the bucket attributes are fetched without error. *)
Theorem validateParams_passes_exactly_valid_resources
  (cloud : Cloud) (bp : backupParams) (p : proc) :
  fst (validateParams cloud bp p) = Ret false <-> validResources cloud bp = true.
Proof.
  rewrite validateParams_run. unfold validResources, bucketValid.
  destruct (datasetValid cloud bp); cbn [andb]; [| split; discriminate].
  unfold tableValid.
  destruct (table_Metadata cloud (sourceDatasetID bp) (backupTableID bp)) as [id | e];
    [| split; discriminate].
  destruct (id =? _); cbn [andb]; [| split; discriminate].
  destruct (storage_NewClient cloud); cbn; [split; discriminate|].
  destruct (bucket_Attrs cloud (storageBucket bp)); cbn; split;
    (discriminate || reflexivity).
Qed.

(** X6.  The lookups of [validateParams] run in the order dataset, table,
    bucket and stop at the first check that fails: the table is looked up
    only for a valid dataset, the bucket only for a valid table and a
    storage client that could be made. *)
Theorem validateParams_lookups_stop_at_first_failure
  (cloud : Cloud) (bp : backupParams) (l b : guarded) :
  filter isRemote (trace (snd (validateParams cloud bp (mkProc l b [])))) =
    EvDatasetMetadata (sourceDatasetID bp) ::
    (if datasetValid cloud bp then
       EvTableMetadata (sourceDatasetID bp) (backupTableID bp) ::
       (if tableValid cloud bp && isNil (storage_NewClient cloud)
        then [EvBucketAttrs (storageBucket bp)] else [])
     else []).
Proof.
  rewrite validateParams_run.
  destruct (datasetValid cloud bp); [| reflexivity].
  unfold tableValid.
  destruct (table_Metadata cloud (sourceDatasetID bp) (backupTableID bp)) as [id | e];
    [| reflexivity].
  destruct (id =? _); [| reflexivity].
  destruct (storage_NewClient cloud); [reflexivity|].
  destruct (bucket_Attrs cloud (storageBucket bp)); reflexivity.
Qed.

(** X7.  When the dataset is valid and the fetch of the table metadata
    fails, [validateParams] panics on the nil metadata right after the
    fetch: the failure is not logged and the bucket is not looked up. *)
Theorem validateParams_panics_on_failed_table_fetch
  (cloud : Cloud) (bp : backupParams) (e : error) (p : proc) :
  datasetValid cloud bp = true ->
  table_Metadata cloud (sourceDatasetID bp) (backupTableID bp) = Err e ->
  validateParams cloud bp p =
    (Panic nilDeref,
     logged p [EvDatasetMetadata (sourceDatasetID bp); EvClose BigQueryClient;
               EvTableMetadata (sourceDatasetID bp) (backupTableID bp)]).
Proof.
  intros D T. rewrite validateParams_run, D. cbv zeta. rewrite T. reflexivity.
Qed.

Lemma validateParams_panics_on_failed_table_fetch_witness :
  datasetValid (withTable (fun _ _ => Err "notFound") (cloudWith None))
    (scenario "" "") = true /\
  table_Metadata (withTable (fun _ _ => Err "notFound") (cloudWith None))
    (sourceDatasetID (scenario "" "")) (backupTableID (scenario "" ""))
    = Err "notFound" /\
  validateParams (withTable (fun _ _ => Err "notFound") (cloudWith None))
    (scenario "" "") freshProc =
    (Panic nilDeref,
     logged freshProc
       [EvDatasetMetadata (sourceDatasetID (scenario "" "")); EvClose BigQueryClient;
        EvTableMetadata (sourceDatasetID (scenario "" ""))
          (backupTableID (scenario "" ""))]).
Proof.
  split; [reflexivity|]. split; [reflexivity|].
  apply (validateParams_panics_on_failed_table_fetch
           (withTable (fun _ _ => Err "notFound") (cloudWith None))
           (scenario "" "") "notFound" freshProc); reflexivity.
Defined.

(** ** Submission and wait *)

(** The whole of [backupBigQueryTable], by the answers to the submission
    and to the wait. *)
Lemma backupBigQueryTable_run (cloud : Cloud) (bp : backupParams) (p : proc) :
  backupBigQueryTable cloud bp p =
    let ds := OStr (sourceDatasetID bp) in
    let tb := OStr (backupTableID bp) in
    let x := setupExtractor cloud bp in
    let t0 := [EvLog Info (Sprintf "Starting backup of table %s.%s to cloud storage"
                             [ds; tb]);
               EvExtractorRun x] in
    match extractor_Run cloud x with
    | Err e =>
        (Panic nilDeref,
         logged p (t0 ++ [EvLog Error
                            (Sprintf "Error starting backup of table %s.%s to cloud storage: %v"
                               [ds; tb; OErr (Some e)])])%list)
    | Ok j =>
        (Ret (true, None),
         logged p (t0 ++ [EvLog Info
                            (Sprintf "Backup of table %s.%s started successfully, jobID: %s"
                               [ds; tb; OStr j]);
                          EvJobWait j;
                          match job_Wait cloud j with
                          | Err e =>
                              EvLog Error
                                (Sprintf "Error waiting for backup of table %s.%s to cloud storage: %v"
                                   [ds; tb; OErr (Some e)])
                          | Ok (Some e) =>
                              EvLog Error
                                (Sprintf "Error backing up table %s.%s to cloud storage: %v"
                                   [ds; tb; OErr (Some e)])
                          | Ok None =>
                              EvLog Info
                                (Sprintf "Backup of table %s.%s completed successfully"
                                   [ds; tb])
                          end])%list)
    end.
Proof.
  unfold backupBigQueryTable, runExtractor, waitForJob.
  unfold bind at 1. rewrite logInfo_run.
  unfold bind at 1. unfold bind at 1. rewrite emit_logged, logged_logged.
  destruct (extractor_Run cloud (setupExtractor cloud bp)) as [j | e].
  - unfold bind at 1. rewrite logInfo_run, logged_logged. unfold ret at 1.
    unfold bind at 1. unfold bind at 1. rewrite emit_logged, logged_logged.
    destruct (job_Wait cloud j) as [[e |] | e];
      unfold bind at 1; rewrite ?logError_run, ?logInfo_run, logged_logged;
      reflexivity.
  - unfold bind at 1. rewrite logError_run, logged_logged. reflexivity.
Qed.

(** X8.  [backupBigQueryTable] submits one job, the extractor of
    [setupExtractor], and waits once, for the job the submission returned;
    after a failed submission it does not wait. *)
Theorem backupBigQueryTable_waits_for_the_submitted_job
  (cloud : Cloud) (bp : backupParams) (l b : guarded) :
  filter isJobEvent (trace (snd (backupBigQueryTable cloud bp (mkProc l b [])))) =
    EvExtractorRun (setupExtractor cloud bp) ::
    match extractor_Run cloud (setupExtractor cloud bp) with
    | Ok j => [EvJobWait j]
    | Err _ => []
    end.
Proof.
  rewrite backupBigQueryTable_run. cbv zeta.
  destruct (extractor_Run cloud (setupExtractor cloud bp)) as [j | e];
    [| reflexivity].
  destruct (job_Wait cloud j) as [[e |] | e]; reflexivity.
Qed.

(** X9.  After a failed submission [runExtractor] logs the failure and
    returns a nil job with a nil error, so [backupBigQueryTable] goes on to
    wait for that nil job and panics. *)
Theorem failed_submission_panics
  (cloud : Cloud) (bp : backupParams) (e : error) (p : proc) :
  extractor_Run cloud (setupExtractor cloud bp) = Err e ->
  fst (runExtractor cloud bp (setupExtractor cloud bp) p) = Ret (None, None) /\
  fst (backupBigQueryTable cloud bp p) = Panic nilDeref /\
  errorLog (trace (snd (backupBigQueryTable cloud bp (mkProc (lcOnce p) (bcOnce p) []))))
    = ["Error starting backup of table " ++ sourceDatasetID bp ++ "."
       ++ backupTableID bp ++ " to cloud storage: " ++ e].
Proof.
  intros H. split; [| split].
  - unfold runExtractor, bind. rewrite emit_logged, H, logError_run. reflexivity.
  - rewrite backupBigQueryTable_run. cbv zeta. rewrite H. reflexivity.
  - rewrite backupBigQueryTable_run. cbv zeta. rewrite H. cbn.
    rewrite append_empty_r. reflexivity.
Qed.

Lemma failed_submission_panics_witness :
  extractor_Run (withRun (fun _ => Err "quota") (cloudWith None))
    (setupExtractor (withRun (fun _ => Err "quota") (cloudWith None))
       (scenario "AVRO" "SNAPPY")) = Err "quota" /\
  fst (backupBigQueryTable (withRun (fun _ => Err "quota") (cloudWith None))
         (scenario "AVRO" "SNAPPY") freshProc) = Panic nilDeref.
Proof.
  split; [reflexivity|].
  apply (failed_submission_panics (withRun (fun _ => Err "quota") (cloudWith None))
           (scenario "AVRO" "SNAPPY") "quota" freshProc).
  reflexivity.
Defined.

Lemma backupBigQueryTable_returns
  (cloud : Cloud) (bp : backupParams) (p : proc) (r : bool * option error) :
  fst (backupBigQueryTable cloud bp p) = Ret r -> r = (true, None).
Proof.
  rewrite backupBigQueryTable_run. cbv zeta.
  destruct (extractor_Run cloud (setupExtractor cloud bp)); cbn; intros H;
    [now injection H as <- | discriminate H].
Qed.

(** ** The handler as a whole *)

Ltac differs :=
  let E := fresh in
  intro E; first [discriminate E | cbn in E; discriminate E].

Lemma sat_backupBigQueryTable_quiet (cloud : Cloud) (bp : backupParams) :
  sat (backupBigQueryTable cloud bp) (fun e => e <> backupProblem)
      (fun r => r = (true, None)).
Proof.
  apply sat_strengthen.
  - unfold backupBigQueryTable, runExtractor, waitForJob, logInfo, logError.
    repeat sat_step ltac:(unfold backupProblem; differs).
  - intros p a. apply backupBigQueryTable_returns.
Qed.

(** X10.  [backupBigQueryTable] never returns a failure: whenever it
    returns, it returns [true] with a nil error.  So no run of the handler,
    whatever the request and the answers of the services, writes the entry
    "Problem backing up BigQuery table". *)
Theorem backup_failure_is_never_reported
  (cloud : Cloud) (r : request) (l b : guarded) (bp : backupParams) (p : proc) :
  (forall res, fst (backupBigQueryTable cloud bp p) = Ret res -> res = (true, None)) /\
  ~ In backupProblem (trace (snd (bigQueryBackup cloud r (mkProc l b [])))).
Proof.
  split; [intros res; apply backupBigQueryTable_returns|].
  assert (S : sat (bigQueryBackup cloud r) (fun e => e <> backupProblem) anything).
  { unfold bigQueryBackup, checkBackupFormat, validateParams, validateDataset,
      validateTable, validateStorageBucket, handleSetup, checkPostBody,
      decodePostBody, setBigQueryClient, setLogger, setProjectID,
      setCSVAndJSONCompression, setAvroParquetCompression, compressed,
      logInfo, logError.
    repeat lazymatch goal with
      | |- sat (bind (backupBigQueryTable ?c ?x) _) _ _ =>
          apply (sat_bind _ _ _ (fun r => r = (true, None)));
          [ apply sat_backupBigQueryTable_quiet
          | intros [ok err] E; injection E as -> ->; cbn [negb] ]
      | |- _ => sat_step ltac:(unfold backupProblem; differs)
      end. }
  destruct (S (mkProc l b [])) as (t & E & F & _). rewrite E. cbn [trace app].
  intros I. rewrite Forall_forall in F. exact (F _ I eq_refl).
Qed.

Section SubmissionGuard.

Variable cloud : Cloud.
Variable P : event -> Prop.
Hypothesis quiet : forall e, isJobEvent e = false -> P e.

Lemma sat_setProjectID (bp : backupParams) :
  sat (setProjectID cloud bp) P
      (fun r => fst r = None ->
                snd r = set_projectID (env_GCP_PROJECT cloud) bp /\
                blank (env_GCP_PROJECT cloud) = false).
Proof.
  intros p. exists []. rewrite setProjectID_run.
  destruct (projectSet cloud) eqn:PS; cbn [fst snd]; rewrite app_nil_r;
    (split; [reflexivity|]); (split; [apply Forall_nil|]);
    intros a E; injection E as <-; cbn; [| discriminate].
  intros _. split; [reflexivity | exact (projectSet_not_blank _ PS)].
Qed.

Lemma sat_handleSetup (bp : backupParams) (r : request) :
  sat (handleSetup bp r) P
      (fun a => fst a = false ->
                exists pb, r = Ok pb /\ missingField pb = None /\
                           snd a = setBackupParams pb bp).
Proof.
  apply sat_strengthen.
  - unfold handleSetup, checkPostBody, decodePostBody, logInfo, logError.
    repeat sat_step ltac:(apply quiet; reflexivity).
  - intros p [hasError bp'] E H. cbn in H. subst hasError.
    exact (handleSetup_returns _ _ _ _ _ E).
Qed.

Lemma validateParams_false (bp : backupParams) (p : proc) :
  fst (validateParams cloud bp p) = Ret false -> validResources cloud bp = true.
Proof.
  rewrite validateParams_run. unfold validResources, bucketValid.
  destruct (datasetValid cloud bp); cbn [andb]; [| discriminate].
  unfold tableValid.
  destruct (table_Metadata cloud (sourceDatasetID bp) (backupTableID bp)) as [id | e];
    [| discriminate].
  destruct (id =? _); cbn [andb]; [| discriminate].
  destruct (storage_NewClient cloud); cbn; [discriminate|].
  destruct (bucket_Attrs cloud (storageBucket bp)); cbn;
    [discriminate | reflexivity].
Qed.

Lemma sat_validateParams (bp : backupParams) :
  sat (validateParams cloud bp) P
      (fun hasError => hasError = false -> validResources cloud bp = true).
Proof.
  apply sat_strengthen.
  - unfold validateParams, validateDataset, validateTable, validateStorageBucket,
      logError.
    repeat sat_step ltac:(apply quiet; reflexivity).
  - intros p a E ->. exact (validateParams_false _ _ E).
Qed.

End SubmissionGuard.

(** Every submission of a run of the handler is a due one. *)
Lemma submissions_are_due (cloud : Cloud) (r : request) (l b : guarded) (x : Extractor) :
  In (EvExtractorRun x) (trace (snd (bigQueryBackup cloud r (mkProc l b [])))) ->
  dulySubmitted cloud r x.
Proof.
  set (P := fun e => forall y, e = EvExtractorRun y -> dulySubmitted cloud r y).
  assert (quiet : forall e, isJobEvent e = false -> P e).
  { intros e H y ->. discriminate H. }
  assert (S : sat (bigQueryBackup cloud r) P anything).
  { unfold bigQueryBackup.
    apply (sat_bind _ _ _ _ _ (sat_setProjectID cloud P zeroBackupParams)).
    intros [err bp0] H0. cbn in H0.
    destruct err; [sat_step idtac|]. destruct (H0 eq_refl) as [-> B].
    unfold setLogger, setBigQueryClient, logError.
    repeat lazymatch goal with
      | |- sat (bind (handleSetup _ _) _) _ _ => fail
      | |- _ => sat_step ltac:(apply quiet; reflexivity)
      end.
    apply (sat_bind _ _ _ _ _ (sat_handleSetup P quiet _ r)).
    intros [hasError bp1] H1. cbn in H1.
    destruct hasError; [sat_step idtac|]. destruct (H1 eq_refl) as (pb & -> & M & ->).
    apply (sat_bind _ _ _ _ _ (sat_validateParams cloud P quiet _)).
    intros hasError H2.
    destruct hasError; [sat_step idtac|]. specialize (H2 eq_refl).
    lazymatch goal with
    | |- sat (bind (checkBackupFormat ?bp) _) _ _ =>
        apply (sat_bind _ _ _ (fun res => res = (true, None, resolved bp)))
    end.
    { apply sat_checkBackupFormat. intros msg. apply quiet. reflexivity. }
    intros [[ok err] bp2] E. injection E as -> -> ->. cbn [negb orb isNil].
    unfold backupBigQueryTable, runExtractor, waitForJob, logInfo, logError.
    repeat sat_step ltac:(first
      [ apply quiet; reflexivity
      | intros y E; discriminate E
      | intros y E; injection E as <-; exists pb; unfold paramsOf; auto ]). }
  destruct (S (mkProc l b [])) as (t & E & F & _). rewrite E. cbn [trace app].
  intros I. rewrite Forall_forall in F. exact (F _ I x eq_refl).
Qed.

(** X11.  The handler submits an export job only for a request whose body
    was decoded with non-empty dataset, table and bucket names, under a
    project identifier that is not blank, and after the dataset, table and
    bucket checks have all passed. *)
Theorem job_is_submitted_only_after_all_checks
  (cloud : Cloud) (r : request) (l b : guarded) (x : Extractor) :
  In (EvExtractorRun x) (trace (snd (bigQueryBackup cloud r (mkProc l b [])))) ->
  blank (env_GCP_PROJECT cloud) = false /\
  exists pb,
    r = Ok pb /\
    DatasetName pb <> "" /\ TableName pb <> "" /\ StorageBucket pb <> "" /\
    validResources cloud (paramsOf cloud pb) = true.
Proof.
  intros H. destruct (submissions_are_due _ _ _ _ _ H) as (pb & -> & M & B & V & _).
  split; [exact B|]. exists pb. apply missingField_none in M. tauto.
Qed.

Lemma job_is_submitted_only_after_all_checks_witness :
  In (EvExtractorRun (setupExtractor (cloudWith None) (scenario "CSV" "GZIP")))
     (trace (snd (bigQueryBackup (cloudWith None) (Ok (body "CSV" "ZSTD"))
                    (mkProc Unset Unset [])))) /\
  blank (env_GCP_PROJECT (cloudWith None)) = false.
Proof.
  assert (I : In (EvExtractorRun (setupExtractor (cloudWith None) (scenario "CSV" "GZIP")))
                (trace (snd (bigQueryBackup (cloudWith None) (Ok (body "CSV" "ZSTD"))
                               (mkProc Unset Unset []))))).
  { cbv. repeat (first [left; reflexivity | right]). }
  split; [exact I|].
  exact (proj1 (job_is_submitted_only_after_all_checks
                  (cloudWith None) (Ok (body "CSV" "ZSTD")) Unset Unset _ I)).
Defined.

Lemma resolved_keeps_names (bp : backupParams) :
  projectID (resolved bp) = projectID bp /\
  sourceDatasetID (resolved bp) = sourceDatasetID bp /\
  backupTableID (resolved bp) = backupTableID bp /\
  storageBucket (resolved bp) = storageBucket bp.
Proof.
  destruct (format_cases (destinationFormat bp)) as [H|[H|[H|[H|[H1[H2[H3 H4]]]]]]].
  - rewrite resolved_csv_json by tauto. repeat split.
  - rewrite resolved_csv_json by tauto. repeat split.
  - rewrite resolved_avro_parquet by tauto.
    destruct (compressionType bp =? ""); repeat split.
  - rewrite resolved_avro_parquet by tauto.
    destruct (compressionType bp =? ""); repeat split.
  - rewrite resolved_other by assumption. repeat split.
Qed.

Lemma resolved_compression (bp : backupParams) :
  compressionType (resolved bp) <> "" /\
  (destinationFormat (resolved bp) = "CSV" \/ destinationFormat (resolved bp) = "JSON" ->
   compressionType (resolved bp) = "GZIP").
Proof.
  destruct (format_cases (destinationFormat bp)) as [H|[H|[H|[H|[H1[H2[H3 H4]]]]]]].
  - rewrite resolved_csv_json by tauto. cbn. split; [discriminate | reflexivity].
  - rewrite resolved_csv_json by tauto. cbn. split; [discriminate | reflexivity].
  - rewrite resolved_avro_parquet by tauto.
    destruct (String.eqb_spec (compressionType bp) ""); cbn; rewrite H;
      (split; [assumption || discriminate | intros [D | D]; discriminate D]).
  - rewrite resolved_avro_parquet by tauto.
    destruct (String.eqb_spec (compressionType bp) ""); cbn; rewrite H;
      (split; [assumption || discriminate | intros [D | D]; discriminate D]).
  - rewrite resolved_other by assumption. cbn.
    split; [discriminate | intros [D | D]; discriminate D].
Qed.

(** X12.  Every export job the handler submits reads the table the request
    names in the project of the environment, writes without header, in one
    of the four formats and with a compression that is never empty, GZIP
    for CSV and JSON; its destination lies in the bucket of the request. *)
Theorem submitted_job_is_well_formed
  (cloud : Cloud) (r : request) (l b : guarded) (x : Extractor) :
  In (EvExtractorRun x) (trace (snd (bigQueryBackup cloud r (mkProc l b [])))) ->
  exists pb,
    r = Ok pb /\
    srcProject x = env_GCP_PROJECT cloud /\
    srcDataset x = DatasetName pb /\ srcTable x = TableName pb /\
    DisableHeader x = true /\
    In (DestinationFormat x) ["CSV"; "JSON"; "AVRO"; "PARQUET"] /\
    CompressionField x <> "" /\
    (DestinationFormat x = "CSV" \/ DestinationFormat x = "JSON" ->
     CompressionField x = "GZIP") /\
    gcsURI x =
      "gs://" ++ StorageBucket pb ++ "/" ++ DatasetName pb ++ "/" ++
      TableName pb ++ "." ++ formatDate (now cloud) ++ "/" ++
      TableName pb ++ "-*." ++ ToLower (DestinationFormat x).
Proof.
  intros H. destruct (submissions_are_due _ _ _ _ _ H) as (pb & -> & M & B & V & ->).
  exists pb. set (bp := paramsOf cloud pb).
  destruct (resolved_keeps_names bp) as (N1 & N2 & N3 & N4).
  destruct (resolved_compression bp) as (C1 & C2).
  rewrite gcsURI_setupExtractor. unfold setupExtractor. cbn.
  rewrite N1, N2, N3, N4.
  repeat split; try assumption.
  pose proof (resolved_extension bp) as X. cbn in X.
  destruct X as [X|[X|[X|[X|[]]]]]; injection X as X _; rewrite <- X; cbn; tauto.
Qed.

Lemma submitted_job_is_well_formed_witness :
  In (EvExtractorRun (setupExtractor (cloudWith None) (scenario "AVRO" "SNAPPY")))
     (trace (snd (bigQueryBackup (cloudWith None) (Ok (body "" ""))
                    (mkProc Unset Unset [])))) /\
  exists pb,
    Ok (body "" "") = Ok pb /\
    srcProject (setupExtractor (cloudWith None) (scenario "AVRO" "SNAPPY"))
      = env_GCP_PROJECT (cloudWith None).
Proof.
  assert (I : In (EvExtractorRun (setupExtractor (cloudWith None) (scenario "AVRO" "SNAPPY")))
                (trace (snd (bigQueryBackup (cloudWith None) (Ok (body "" ""))
                               (mkProc Unset Unset []))))).
  { cbv. repeat (first [left; reflexivity | right]). }
  split; [exact I|].
  destruct (submitted_job_is_well_formed
              (cloudWith None) (Ok (body "" "")) Unset Unset _ I)
    as (pb & E & S & _).
  exists pb. split; assumption.
Defined.

(** ** What never happens, and what happens once *)

Section NeverExits.

Context {A B : Type}.

Lemma neverExits_ret (a : A) : neverExits (ret a).
Proof. intros p w. discriminate. Qed.

Lemma neverExits_panic (why : string) : neverExits (@panic A why).
Proof. intros p w. discriminate. Qed.

Lemma neverExits_bind (m : M A) (k : A -> M B) (Q : A -> Prop) :
  (forall p a, fst (m p) = Ret a -> Q a) ->
  neverExits m -> (forall a, Q a -> neverExits (k a)) -> neverExits (bind m k).
Proof.
  intros HQ Hm Hk p w. unfold bind.
  pose proof (HQ p) as Q1. pose proof (Hm p) as N1.
  destruct (m p) as [[a | v | v] p1]; cbn [fst] in *.
  - apply Hk. now apply Q1.
  - discriminate.
  - exfalso. exact (N1 v eq_refl).
Qed.

Lemma neverExits_defer (d : M unit) (m : M A) :
  neverExits d -> neverExits m -> neverExits (defer d m).
Proof.
  intros Hd Hm p w. unfold defer. pose proof (Hm p) as N1.
  destruct (m p) as [[a | v | v] p1]; cbn [fst] in *.
  - pose proof (Hd p1) as N2.
    destruct (d p1) as [[u | v | v] p2]; cbn [fst] in *;
      [discriminate | discriminate | exfalso; exact (N2 v eq_refl)].
  - pose proof (Hd p1) as N2.
    destruct (d p1) as [[u | v' | v'] p2]; cbn [fst] in *;
      [discriminate | discriminate | exfalso; exact (N2 v' eq_refl)].
  - exfalso. exact (N1 v eq_refl).
Qed.

End NeverExits.

Lemma neverExits_bind_any {A B} (m : M A) (k : A -> M B) :
  neverExits m -> (forall a, neverExits (k a)) -> neverExits (bind m k).
Proof.
  intros Hm Hk. apply (neverExits_bind m k (fun _ => True)); auto.
Qed.

Lemma neverExits_emit (e : event) : neverExits (emit e).
Proof. intros p w. discriminate. Qed.

Lemma neverExits_once (guard : proc -> guarded) (f : M unit) :
  neverExits f -> neverExits (once guard f).
Proof.
  intros Hf p w. unfold once. destruct (guard p); [apply Hf | discriminate | discriminate].
Qed.

Lemma neverExits_set_lc (v : guarded) : neverExits (set_lc v).
Proof. intros p w. discriminate. Qed.

Lemma neverExits_set_bc (v : guarded) : neverExits (set_bc v).
Proof. intros p w. discriminate. Qed.

Lemma neverExits_closeClient (v : proc -> guarded) (c : client) :
  neverExits (closeClient v c).
Proof. intros p w. unfold closeClient. destruct (v p); discriminate. Qed.

Ltac never_step :=
  lazymatch goal with
  | |- neverExits (ret _) => apply neverExits_ret
  | |- neverExits (panic _) => apply neverExits_panic
  | |- neverExits (emit _) => apply neverExits_emit
  | |- neverExits (defer _ _) => apply neverExits_defer
  | |- neverExits (once _ _) => apply neverExits_once
  | |- neverExits (set_lc _) => apply neverExits_set_lc
  | |- neverExits (set_bc _) => apply neverExits_set_bc
  | |- neverExits (closeClient _ _) => apply neverExits_closeClient
  | |- neverExits (bind _ _) => apply neverExits_bind_any; [| intros ?]
  | |- neverExits (match ?x with _ => _ end) => destruct x
  end.

(** What [setLogger] returns is nil, whatever the constructor of the client
    did. *)
Lemma setLogger_returns (cloud : Cloud) (bp : backupParams) (p : proc)
  (err : option error) :
  fst (setLogger cloud bp p) = Ret err -> err = None.
Proof.
  destruct p as [lo bo t].
  cbv beta iota delta [setLogger defer bind once closeClient set_lc emit ret panic
                       fst snd lcOnce bcOnce trace].
  destruct lo; [destruct (logging_NewClient cloud (projectID bp)) | |]; cbn;
    intros H; try discriminate H; now injection H as <-.
Qed.

Lemma neverExits_setLogger (cloud : Cloud) (bp : backupParams) :
  neverExits (setLogger cloud bp).
Proof. unfold setLogger. repeat never_step. Qed.

(** X13.  The handler never ends the process: [setLogger] returns nil
    whatever happened, so the [log.Fatalf] of the handler is never reached;
    a run ends by returning or by a panic. *)
Theorem handler_never_exits_the_process (cloud : Cloud) (r : request) (p : proc) :
  (forall c bp q err, fst (setLogger c bp q) = Ret err -> err = None) /\
  (fst (bigQueryBackup cloud r p) = Ret tt \/
   exists why, fst (bigQueryBackup cloud r p) = Panic why).
Proof.
  split; [exact setLogger_returns|].
  assert (N : neverExits (bigQueryBackup cloud r)).
  { unfold bigQueryBackup, backupBigQueryTable, waitForJob, runExtractor,
      validateParams, validateDataset, validateTable, validateStorageBucket,
      handleSetup, checkPostBody, decodePostBody, setBigQueryClient,
      setProjectID, checkBackupFormat, setCSVAndJSONCompression,
      setAvroParquetCompression, compressed, logInfo, logError.
    repeat lazymatch goal with
      | |- neverExits (bind (setLogger _ ?x) _) =>
          apply (neverExits_bind _ _ (fun err => err = None));
          [ intros q a; apply setLogger_returns
          | apply neverExits_setLogger
          | intros err -> ]
      | |- _ => never_step
      end. }
  specialize (N p).
  destruct (fst (bigQueryBackup cloud r p)) as [[] | why | why].
  - left. reflexivity.
  - right. exists why. reflexivity.
  - exfalso. exact (N why eq_refl).
Qed.

Lemma constructorCalls_app (c : client) (t u : list event) :
  constructorCalls c (t ++ u) = constructorCalls c t + constructorCalls c u.
Proof. unfold constructorCalls. now rewrite filter_app, length_app. Qed.

(** X14.  The constructor of each client runs at most once in a process.
    Over two calls of [setBigQueryClient], or of [setLogger], whatever
    their arguments, it is called once if the guard had not fired and not
    at all if it had; a failed constructor is not tried again.  A call
    returns nil when the variable holds a client; when the constructor has
    failed, this call and the next both panic in the deferred [Close]. *)
Theorem constructors_run_once
  (cloud cloud' : Cloud) (bp bp' : backupParams) (p : proc) :
  let p1 := setBigQueryClient cloud bp p in
  let p2 := setBigQueryClient cloud' bp' (snd p1) in
  let q1 := setLogger cloud bp p in
  let q2 := setLogger cloud' bp' (snd q1) in
  (constructorCalls BigQueryClient (trace (snd p2))
     = constructorCalls BigQueryClient (trace p)
       + match bcOnce p with Unset => 1 | _ => 0 end /\
   bcOnce (snd p1)
     = match bcOnce p with
       | Unset => if isNil (bigquery_NewClient cloud (projectID bp))
                  then Client else NilClient
       | v => v
       end /\
   bcOnce (snd p2) = bcOnce (snd p1) /\
   (bcOnce (snd p1) = Client -> fst p1 = Ret None /\ fst p2 = Ret None) /\
   (bcOnce (snd p1) = NilClient ->
    fst p1 = Panic nilDeref /\ fst p2 = Panic nilDeref)) /\
  (constructorCalls LoggingClient (trace (snd q2))
     = constructorCalls LoggingClient (trace p)
       + match lcOnce p with Unset => 1 | _ => 0 end /\
   lcOnce (snd q1)
     = match lcOnce p with
       | Unset => if isNil (logging_NewClient cloud (projectID bp))
                  then Client else NilClient
       | v => v
       end /\
   lcOnce (snd q2) = lcOnce (snd q1) /\
   (lcOnce (snd q1) = Client -> fst q1 = Ret None /\ fst q2 = Ret None) /\
   (lcOnce (snd q1) = NilClient ->
    fst q1 = Panic nilDeref /\ fst q2 = Panic nilDeref)).
Proof.
  cbv zeta. destruct p as [lo bo t]. split.
  - cbv beta iota delta [setBigQueryClient defer bind once closeClient set_bc
                         logError emit ret panic fst snd bcOnce lcOnce trace].
    destruct bo; [destruct (bigquery_NewClient cloud (projectID bp)) | |];
      cbv beta iota delta [bind emit ret panic isNil fst snd bcOnce lcOnce trace];
      rewrite ?constructorCalls_app; cbn;
      repeat split; try discriminate; lia.
  - cbv beta iota delta [setLogger defer bind once closeClient set_lc
                         emit ret panic fst snd bcOnce lcOnce trace].
    destruct lo; [destruct (logging_NewClient cloud (projectID bp)) | |];
      cbv beta iota delta [bind emit ret panic isNil fst snd bcOnce lcOnce trace];
      rewrite ?constructorCalls_app; cbn;
      repeat split; try discriminate; lia.
Qed.

(** ** Start of the emulator *)

(** X15.  [init] of the emulator ends the process exactly when
    [GCP_PROJECT] is the empty string.  Otherwise the server port is [PORT],
    or 8080 when [PORT] is unset, while the start message and the curl hint
    print [PORT] itself: with [PORT] unset they announce an empty port for a
    server that listens on 8080. *)
Theorem mainInit_port_and_announcement (envPORT envGCP_PROJECT : string) :
  (envGCP_PROJECT = "" <-> exists why, mainInit envPORT envGCP_PROJECT = Exit why) /\
  (envGCP_PROJECT <> "" ->
   exists port,
     mainInit envPORT envGCP_PROJECT =
       Ret (port,
            ["BigQuery Backup starting up on PORT " ++ envPORT ++ newline;
             "GCP_PROJECT: " ++ envGCP_PROJECT ++ newline ++ newline;
             "Open a new tab in your terminal and run:" ++ newline ++ newline
             ++ "// curl http://localhost:" ++ envPORT]) /\
     (envPORT <> "" -> port = envPORT) /\
     (envPORT = "" -> port = "8080")).
Proof.
  unfold mainInit.
  destruct (String.eqb_spec envGCP_PROJECT "") as [E | E]; split.
  - split; [intros _; eexists; reflexivity | intros _; exact E].
  - intros H. contradiction.
  - split; [intros H; contradiction | intros [why H]; discriminate H].
  - intros _. eexists. split; [| split].
    + cbn. rewrite !append_empty_r. reflexivity.
    + intros H. apply String.eqb_neq in H. rewrite H. reflexivity.
    + intros ->. reflexivity.
Qed.

(** X16.  A [GCP_PROJECT] of white space only passes [init] of the
    emulator, which tests for the empty string alone, and is then refused
    by [setProjectID] on every request: the server runs and each request
    returns without a log entry or a call to any service. *)
Theorem whitespace_project_starts_and_serves_nothing
  (cloud : Cloud) (envPORT : string) (r : request) (p : proc) :
  env_GCP_PROJECT cloud <> "" ->
  blank (env_GCP_PROJECT cloud) = true ->
  (exists started, mainInit envPORT (env_GCP_PROJECT cloud) = Ret started) /\
  bigQueryBackup cloud r p = (Ret tt, p).
Proof.
  intros N B. split.
  - unfold mainInit. apply String.eqb_neq in N. rewrite N. eexists. reflexivity.
  - unfold bigQueryBackup, bind.
    rewrite setProjectID_run, (projectSet_blank _ B). reflexivity.
Qed.

Lemma whitespace_project_starts_and_serves_nothing_witness :
  env_GCP_PROJECT (withProject "   " (cloudWith None)) <> "" /\
  blank (env_GCP_PROJECT (withProject "   " (cloudWith None))) = true /\
  (exists started,
     mainInit "" (env_GCP_PROJECT (withProject "   " (cloudWith None))) = Ret started) /\
  bigQueryBackup (withProject "   " (cloudWith None)) (Ok (body "" "")) freshProc
    = (Ret tt, freshProc).
Proof.
  split; [discriminate|]. split; [reflexivity|].
  apply (whitespace_project_starts_and_serves_nothing
           (withProject "   " (cloudWith None)) "" (Ok (body "" "")) freshProc);
    [discriminate | reflexivity].
Defined.
